(** * uniqueizer: the job orchestration engine of the video uniquifier

    A shallow embedding of [app/services/uniquifier.py],
    [app/services/video_processor.py] and the task endpoints of
    [app/main.py], and the properties of the parameter generator, the
    encoder invocation, the orchestration loop, the archive builder, the
    retention sweep and the download / deletion endpoints.

    Conventions.
    - Python [int] is [Z]; Python [float] is IEEE binary64, here Rocq's
      primitive [float]; [str] is [string]; a [dict] used as a record with
      optional keys is a [Record] with [option] fields; the task registry
      [active_tasks] is a [gmap string Task].
    - [datetime] values are microseconds since the epoch, in [Z].
    - Library calls whose result this development does not compute (the
      Mersenne Twister behind [random], SHA-256, the decimal rendering of a
      float, the ISO rendering of a date, the size of a deflated archive)
      are the operations of the class [PyRuntime]; the general theorems
      hold for every instance, the examples run on [sample_runtime]. The
      external encoder and the other coroutines of the event loop are
      variables of the sections that need them. *)

From Stdlib Require Import ZArith Floats Uint63 Lia.
From stdpp Require Import gmap strings list fin_maps pretty sorting.

Local Open Scope string_scope.
Local Open Scope list_scope.
Local Open Scope Z_scope.

(** ** The Python runtime *)

Class PyRuntime := {
  (** state of the module-level generator of [random] *)
  rng_state : Type;
  (** [random.seed(n)] *)
  random_seed : Z → rng_state;
  (** [random.random()], a float of [[0.0, 1.0)] *)
  random_random : rng_state → float * rng_state;
  (** [Random._randbelow(n)], an int of [[0, n)] *)
  random_randbelow : Z → rng_state → Z * rng_state;
  random_randbelow_range : ∀ n g,
    0 < n → 0 ≤ (random_randbelow n g).1 < n;
  (** [hashlib.sha256(s.encode()).hexdigest()] *)
  sha256_hexdigest : string → string;
  (** [str(x)] of a float, also what an f-string prints for it *)
  float_str : float → string;
  (** [datetime.fromtimestamp(t).isoformat()] *)
  fromtimestamp_isoformat : float → string;
  (** [st_size] of a ZIP_DEFLATED archive with the given members
      (name, size of the member on disk) *)
  zip_st_size : list (string * Z) → Z
}.

(** [float(n)] of an int; exact below 2^53, rounded to nearest below 2^63. *)
Definition float_of_Z (n : Z) : float :=
  if n <? 0 then PrimFloat.opp (PrimFloat.of_uint63 (Uint63.of_Z (- n)))
  else PrimFloat.of_uint63 (Uint63.of_Z n).

(** [datetime.timestamp()]: whole seconds plus [microsecond / 1e6]. *)
Definition timestamp (now : Z) : float :=
  (float_of_Z (now / 1000000) + float_of_Z (now mod 1000000) / 1000000)%float.

(** [str(n)] of an int. *)
Definition int_str (n : Z) : string := pretty n.

Fixpoint zeros (k : nat) : string :=
  match k with O => "" | S k' => "0" +:+ zeros k' end.

(** [f"{n:03d}"]: the sign, then the digits padded with zeros to a total
    width of three. *)
Definition fmt_03d (n : Z) : string :=
  if n <? 0
  then "-" +:+ zeros (2 - String.length (pretty (- n))) +:+ pretty (- n)
  else zeros (3 - String.length (pretty n)) +:+ pretty n.

(** [sep.join(parts)] *)
Fixpoint join (sep : string) (parts : list string) : string :=
  match parts with
  | [] => ""
  | [p] => p
  | p :: rest => p +:+ sep +:+ join sep rest
  end.

(** ** The pseudo-random source as a state monad *)

Section Random.
Context `{PyRuntime}.

Definition Rand (A : Type) : Type := rng_state → A * rng_state.

#[export] Instance rand_ret : MRet Rand := λ A a g, (a, g).

#[export] Instance rand_bind : MBind Rand :=
  λ A B k m g, let '(a, g') := m g in k a g'.

(** [random.seed(n)]: whatever the state was, it is now the one of [n]. *)
Definition seed (n : Z) : Rand unit := λ _, (tt, random_seed n).

Definition random : Rand float := random_random.

(** [random.choice(seq)] of a non-empty sequence [x :: xs]:
    [seq[_randbelow(len(seq))]]. The index is in range
    ([random_randbelow_range]), so the default of [nth] is never used. *)
Definition choice {A} (x : A) (xs : list A) : Rand A :=
  λ g, let '(k, g') := random_randbelow (Z.of_nat (length (x :: xs))) g in
       (nth (Z.to_nat k) (x :: xs) x, g').

(** [random.uniform(a, b)]: [a + (b - a) * random()]. *)
Definition uniform (a b : float) : Rand float :=
  λ g, let '(r, g') := random_random g in ((a + (b - a) * r)%float, g').

(** [random.randint(a, b)]: [a + _randbelow(b - a + 1)]. *)
Definition randint (a b : Z) : Rand Z :=
  λ g, let '(k, g') := random_randbelow (b - a + 1) g in (a + k, g').
End Random.

(** ** ParameterGenerator: [VideoUniquifier._generate_unique_params] *)

Record Recipe := {
  fps : float;
  crf : Z;
  preset : string;
  scale_factor : float;
  gop_size : Z;
  audio_bitrate : string;
  audio_volume : float;
  creation_time : string;
  unique_id : string;
  copy_number : Z;
  encoder_tag : string;
  pixel_format : string;
  b_frames : Z;
  ref_frames : Z
}.

(** The fields of a recipe that come from the pseudo-random source or from
    the copy index alone: all but [creation_time] and [unique_id]. *)
Definition sampled_fields (r : Recipe) :=
  (fps r, crf r, preset r, scale_factor r, gop_size r, audio_bitrate r,
   audio_volume r, copy_number r, encoder_tag r, pixel_format r,
   b_frames r, ref_frames r).

Section Uniquifier.
Context `{PyRuntime}.

(** [now] is the reading of [datetime.now()] during the call. *)
Definition _generate_unique_params (now : Z) (copy_number total_copies : Z)
  : Rand Recipe :=
  (seed copy_number;;
   fps_base ← choice 23.976%float
     [24; 25; 29.97; 30; 30.01; 50; 59.94; 60]%float;
   fps_offset ← uniform (-0.001) 0.001;
   crf_variation ← randint 17 23;
   preset ← choice "slower" ["slow"; "medium"];
   u ← uniform (-0.005) 0.005;
   let scale_factor := (1 + u)%float in
   gop_size ← randint 240 260;
   audio_bitrate ← choice "192k" ["256k"; "320k"];
   v ← uniform (-0.003) 0.003;
   let audio_volume := (1.0 + v)%float in
   let timestamp := (timestamp now + float_of_Z copy_number)%float in
   r ← random;
   let unique_id := sha256_hexdigest
     (int_str copy_number +:+ "_" +:+ float_str timestamp +:+ "_"
      +:+ float_str r) in
   pixel_format ← choice "yuv420p" ["yuv420p10le"];
   b_frames ← randint 2 4;
   ref_frames ← randint 3 5;
   mret {|
     fps := fps_base + fps_offset;
     crf := crf_variation;
     preset := preset;
     scale_factor := scale_factor;
     gop_size := gop_size;
     audio_bitrate := audio_bitrate;
     audio_volume := audio_volume;
     creation_time := fromtimestamp_isoformat timestamp;
     unique_id := unique_id;
     copy_number := copy_number;
     encoder_tag := "UniqueEncoder_v" +:+ int_str copy_number;
     pixel_format := pixel_format;
     b_frames := b_frames;
     ref_frames := ref_frames
   |}).

(** ** EncodeInvoker: [VideoUniquifier._build_ffmpeg_command] *)

Definition scale_filter (params : Recipe) : string :=
  "scale=iw*" +:+ float_str (scale_factor params) +:+ ":ih*"
  +:+ float_str (scale_factor params) +:+ ":flags=lanczos".

Definition crop_filter (shift_x shift_y : float) : string :=
  "crop=iw-1:ih-1:" +:+ float_str shift_x +:+ ":" +:+ float_str shift_y.

Definition pad_filter : string := "pad=iw+1:ih+1:0:0".

(** [abs(params['scale_factor'] - 1.0) > 0.0001] *)
Definition scale_is_visible (params : Recipe) : bool :=
  (0.0001 <? PrimFloat.abs (scale_factor params - 1.0))%float.

(** The list [video_filters] when the command is assembled. *)
Definition video_filters (params : Recipe) (shift_x shift_y : float)
  : list string :=
  (if scale_is_visible params then [scale_filter params] else [])
  ++ [crop_filter shift_x shift_y]
  ++ [pad_filter].

Definition _build_ffmpeg_command (input_path output_path : string)
    (params : Recipe) : Rand (list string) :=
  (shift_x ← uniform (-0.5) 0.5;
   shift_y ← uniform (-0.5) 0.5;
   let video_filters := video_filters params shift_x shift_y in
   mret (
     ["ffmpeg"; "-i"; input_path; "-y"]
     ++ (match video_filters with
         | [] => []
         | _ => ["-vf"; join "," video_filters]
         end)
     ++ ["-c:v"; "libx264";
         "-preset"; preset params;
         "-crf"; int_str (crf params);
         "-g"; int_str (gop_size params);
         "-bf"; int_str (b_frames params);
         "-refs"; int_str (ref_frames params);
         "-pix_fmt"; pixel_format params]
     ++ ["-r"; float_str (fps params)]
     ++ ["-c:a"; "aac";
         "-b:a"; audio_bitrate params;
         "-af"; "volume=" +:+ float_str (audio_volume params)]
     ++ ["-metadata"; "creation_time=" +:+ creation_time params;
         "-metadata"; "encoder=" +:+ encoder_tag params;
         "-metadata"; "comment=Unique_Copy_" +:+ int_str (copy_number params);
         "-metadata"; "unique_id=" +:+ unique_id params;
         "-metadata"; "title=Video_" +:+ fmt_03d (copy_number params)]
     ++ ["-movflags"; "+faststart";
         "-fflags"; "+genpts"]
     ++ [output_path])).
End Uniquifier.

(** ** Data model: tasks, the disk, the world *)

Inductive Status := processing | completed | failed.

Definition status_str (s : Status) : string :=
  match s with
  | processing => "processing"
  | completed => "completed"
  | failed => "failed"
  end.

#[export] Instance Status_eq_dec : EqDecision Status.
Proof. solve_decision. Defined.

(** One value of [VideoProcessor.active_tasks]. The keys ['archive'],
    ['error'] and ['completed_at'] are absent until they are assigned. *)
Record Task := {
  status : Status;
  progress : Z;
  total : Z;
  files : list string;
  created_at : Z;
  last_accessed : Z;
  task_dir : string;
  input_file : string;
  archive : option string;
  error : option string;
  completed_at : option Z
}.

Definition set_progress (i : Z) (t : Task) : Task :=
  {| status := status t; progress := i; total := total t; files := files t;
     created_at := created_at t; last_accessed := last_accessed t;
     task_dir := task_dir t; input_file := input_file t;
     archive := archive t; error := error t;
     completed_at := completed_at t |}.

Definition set_files (l : list string) (t : Task) : Task :=
  {| status := status t; progress := progress t; total := total t; files := l;
     created_at := created_at t; last_accessed := last_accessed t;
     task_dir := task_dir t; input_file := input_file t;
     archive := archive t; error := error t;
     completed_at := completed_at t |}.

Definition set_last_accessed (now : Z) (t : Task) : Task :=
  {| status := status t; progress := progress t; total := total t;
     files := files t; created_at := created_at t; last_accessed := now;
     task_dir := task_dir t; input_file := input_file t;
     archive := archive t; error := error t;
     completed_at := completed_at t |}.

Definition set_archive (name : string) (t : Task) : Task :=
  {| status := status t; progress := progress t; total := total t;
     files := files t; created_at := created_at t;
     last_accessed := last_accessed t;
     task_dir := task_dir t; input_file := input_file t;
     archive := Some name; error := error t;
     completed_at := completed_at t |}.

(** [task.update({'status': 'completed', 'completed_at': now,
    'last_accessed': now})] *)
Definition update_completed (now : Z) (t : Task) : Task :=
  {| status := completed; progress := progress t; total := total t;
     files := files t; created_at := created_at t; last_accessed := now;
     task_dir := task_dir t; input_file := input_file t;
     archive := archive t; error := error t;
     completed_at := Some now |}.

(** [task.update({'status': 'failed', 'error': str(e),
    'last_accessed': now})] *)
Definition update_failed (msg : string) (now : Z) (t : Task) : Task :=
  {| status := failed; progress := progress t; total := total t;
     files := files t; created_at := created_at t; last_accessed := now;
     task_dir := task_dir t; input_file := input_file t;
     archive := archive t; error := Some msg;
     completed_at := completed_at t |}.

(** A regular file: its size, its modification time, and the member
    names when it is a ZIP archive. *)
Record File := {
  st_size : Z;
  st_mtime : Z;
  namelist : option (list string)
}.

(** A task directory under [settings.output_dir]. *)
Record Dir := {
  dir_mtime : Z;
  dir_files : gmap string File
}.

(** The part of the file system the service owns: the task directories of
    [settings.output_dir] by name, the files of [settings.upload_dir] by
    name, and the paths that cannot be removed at the moment (in use, not
    permitted): [shutil.rmtree] and [Path.unlink] raise on them and leave
    them in place. *)
Record Disk := {
  output_dir : gmap string Dir;
  upload_dir : gmap string File;
  locked_dirs : gset string;
  locked_uploads : gset string
}.

Definition with_output_dir (o : gmap string Dir) (d : Disk) : Disk :=
  {| output_dir := o; upload_dir := upload_dir d;
     locked_dirs := locked_dirs d; locked_uploads := locked_uploads d |}.

Definition with_upload_dir (u : gmap string File) (d : Disk) : Disk :=
  {| output_dir := output_dir d; upload_dir := u;
     locked_dirs := locked_dirs d; locked_uploads := locked_uploads d |}.

(** [str(settings.upload_dir / name)] *)
Definition upload_path (name : string) : string := "uploads/" +:+ name.

(** [str(settings.output_dir / task_id)] *)
Definition task_dir_path (task_id : string) : string := "outputs/" +:+ task_id.

(** [str(settings.output_dir / task_id / filename)] *)
Definition output_path_str (task_id filename : string) : string :=
  task_dir_path task_id +:+ "/" +:+ filename.

(** [(settings.output_dir / task_id).exists()] *)
Definition dir_exists (task_id : string) (d : Disk) : bool :=
  bool_decide (is_Some (output_dir d !! task_id)).

(** The file [settings.output_dir / task_id / filename], if any. *)
Definition output_file (task_id filename : string) (d : Disk) : option File :=
  dir ← output_dir d !! task_id; dir_files dir !! filename.

(** [(settings.output_dir / task_id / filename).exists()] *)
Definition file_exists (task_id filename : string) (d : Disk) : bool :=
  bool_decide (is_Some (output_file task_id filename d)).

(** [sum(f.stat().st_size for f in task_dir.rglob('*') if f.is_file())] *)
Definition dir_size (dir : Dir) : Z :=
  foldr (λ kv acc, st_size kv.2 + acc) 0 (map_to_list (dir_files dir)).

(** [shutil.rmtree(task_dir)] of an existing directory: [None] when it
    raises. The failure that is modelled is the one that strikes before
    any entry is deleted (the directory cannot be listed or written), so
    the disk is the same afterwards; a removal that fails part-way and
    leaves the directory with fewer files is not modelled. *)
Definition rmtree (task_id : string) (d : Disk) : option Disk :=
  if decide (task_id ∈ locked_dirs d) then None
  else Some (with_output_dir (delete task_id (output_dir d)) d).

(** [upload_file.unlink()] of an existing file, likewise. *)
Definition unlink (name : string) (d : Disk) : option Disk :=
  if decide (name ∈ locked_uploads d) then None
  else Some (with_upload_dir (delete name (upload_dir d)) d).

Inductive Exn :=
  | KeyError (key : string)
  | OSError (msg : string)
  | RuntimeError (msg : string)
  | HTTPException (status_code : Z) (detail : string).

(** [str(e)] *)
Definition exn_str (e : Exn) : string :=
  match e with
  | KeyError key => "'" +:+ key +:+ "'"
  | OSError msg => msg
  | RuntimeError msg => msg
  | HTTPException code detail => int_str code +:+ ": " +:+ detail
  end.

Inductive Result (A : Type) :=
  | Ok (a : A)
  | Raise (e : Exn).
Arguments Ok {A} a.
Arguments Raise {A} e.

Section World.
Context `{PyRuntime}.

(** Everything a coroutine of the service can read or change: the task
    registry, the disk, the clock behind [datetime.now()] and the state
    of the module-level [random]. *)
Record World := {
  active_tasks : gmap string Task;
  disk : Disk;
  clock : Z;
  rng : rng_state
}.

Definition with_tasks (m : gmap string Task) (w : World) : World :=
  {| active_tasks := m; disk := disk w; clock := clock w; rng := rng w |}.

Definition with_disk (d : Disk) (w : World) : World :=
  {| active_tasks := active_tasks w; disk := d; clock := clock w;
     rng := rng w |}.

Definition with_rng (g : rng_state) (w : World) : World :=
  {| active_tasks := active_tasks w; disk := disk w; clock := clock w;
     rng := g |}.

(** Computations that change the world and may raise; what was changed
    before an exception stays changed. *)
Definition M (A : Type) : Type := World → Result A * World.

#[export] Instance M_ret : MRet M := λ A a w, (Ok a, w).

#[export] Instance M_bind : MBind M :=
  λ A B k m w,
    match m w with
    | (Ok a, w') => k a w'
    | (Raise e, w') => (Raise e, w')
    end.

Definition raise {A} (e : Exn) : M A := λ w, (Raise e, w).

(** [try: body except Exception as e: handler(e)] *)
Definition try_except {A} (body : M A) (handler : Exn → M A) : M A :=
  λ w,
    match body w with
    | (Ok a, w') => (Ok a, w')
    | (Raise e, w') => handler e w'
    end.

Definition get_world : M World := λ w, (Ok w, w).

(** [datetime.now()] *)
Definition now : M Z := λ w, (Ok (clock w), w).

(** Running a computation of the random source on the module state. *)
Definition with_random {A} (m : Rand A) : M A :=
  λ w, let '(a, g) := m (rng w) in (Ok a, with_rng g w).

(** [self.active_tasks[task_id][...] = ...] and
    [self.active_tasks[task_id].update(...)]: [KeyError] when the
    registry has no such task. *)
Definition task_update (task_id : string) (f : Task → Task) : M unit :=
  λ w,
    match active_tasks w !! task_id with
    | Some t => (Ok tt, with_tasks (<[task_id := f t]> (active_tasks w)) w)
    | None => (Raise (KeyError task_id), w)
    end.
End World.

(** Where [_process_task] is suspended: inside
    [await asyncio.to_thread(create_unique_copy, ...)] for copy [i], inside
    [await asyncio.sleep(0.1)] after copy [i], and inside
    [await asyncio.to_thread(create_zip)]. *)
Inductive AwaitPoint :=
  | during_encode (i : Z)
  | during_sleep (i : Z)
  | during_archive.

Section Processor.
Context `{PyRuntime}.

(** [subprocess.run(command, capture_output=True, text=True, check=True)]
    of the external encoder: whether the call returned, and the disk it
    leaves. The call returns when the encoder could be started, exited
    with status 0 and its captured output could be decoded as text;
    [False] stands for every exception it raises instead
    ([CalledProcessError] on another exit status, [OSError] when the
    program cannot be started, [UnicodeDecodeError] on output that is not
    text), whatever the encoder wrote to the disk before. *)
Variable ffmpeg : list string → Disk → bool * Disk.

(** What the rest of the event loop does to the world while
    [_process_task] is suspended at a point, and the exception the
    [await] raises into it, if any. *)
Variable others : AwaitPoint → M unit.

(** [VideoUniquifier.create_unique_copy]: every exception of the body
    becomes [False]. The input is an upload, the output a file of the
    task directory. *)
Definition create_unique_copy (input_file task_id output_filename : string)
    (copy_number total_copies : Z) : M bool :=
  λ w,
    let '(params, g1) :=
      _generate_unique_params (clock w) copy_number total_copies (rng w) in
    let '(command, g2) :=
      _build_ffmpeg_command (upload_path input_file)
        (output_path_str task_id output_filename) params g1 in
    let '(returned, d) := ffmpeg command (disk w) in
    let w' := with_disk d (with_rng g2 w) in
    if returned then (Ok (file_exists task_id output_filename d), w')
    else (Ok false, w').

(** [f"video_{i:03d}.{output_format}"] *)
Definition output_filename (i : Z) (output_format : string) : string :=
  "video_" +:+ fmt_03d i +:+ "." +:+ output_format.

(** [f"videos_{task_id}.zip"] *)
Definition archive_name (task_id : string) : string :=
  "videos_" +:+ task_id +:+ ".zip".

(** The body of [for i in range(1, copies_count + 1)] for one [i]; it
    returns [created_files] as the next pass finds it. [created_files] and
    the ['files'] entry of the task are one list object in the source; the
    entry is re-assigned before every suspension, so at every point where
    another coroutine runs the two agree with the value kept here. *)
Definition copy_loop_body (task_id input_file : string) (copies_count : Z)
    (output_format : string) (i : Z) (created_files : list string)
  : M (list string) :=
  let output_filename := output_filename i output_format in
  success ← create_unique_copy input_file task_id output_filename
              i copies_count;
  others (during_encode i);;
  w ← get_world;
  let created_files :=
    if success && file_exists task_id output_filename (disk w)
    then created_files ++ [output_filename]
    else created_files in
  task_update task_id (set_progress i);;
  task_update task_id (set_files created_files);;
  t ← now;
  task_update task_id (set_last_accessed t);;
  others (during_sleep i);;
  mret created_files.

(** The loop, for the indices still to come. *)
Fixpoint copy_loop (task_id input_file : string) (copies_count : Z)
    (output_format : string) (indices : list Z)
    (created_files : list string) : M (list string) :=
  match indices with
  | [] => mret created_files
  | i :: rest =>
      created_files ← copy_loop_body task_id input_file copies_count
                        output_format i created_files;
      copy_loop task_id input_file copies_count output_format rest
        created_files
  end.

(** ** ArchiveBuilder: [VideoProcessor._create_archive] *)

(** The members [create_zip] writes into a directory whose archive file
    has just been opened: the listed names that exist there, in the order
    of the list, each with its size. *)
Definition zip_entries (dir : Dir) (files : list string)
  : list (string * Z) :=
  omap (λ filename, f ← dir_files dir !! filename;
                    Some (filename, st_size f)) files.

(** [create_zip]: opening the archive for writing creates it (and fails
    when the directory is gone), then every listed file that exists is
    added. *)
Definition create_zip (task_id : string) (files : list string) : M unit :=
  λ w,
    match output_dir (disk w) !! task_id with
    | None => (Raise (OSError "No such file or directory"), w)
    | Some dir =>
        let opened :=
          {| dir_mtime := clock w;
             dir_files := <[archive_name task_id :=
               {| st_size := zip_st_size []; st_mtime := clock w;
                  namelist := Some [] |}]> (dir_files dir) |} in
        let entries := zip_entries opened files in
        let written :=
          {| dir_mtime := clock w;
             dir_files := <[archive_name task_id :=
               {| st_size := zip_st_size entries; st_mtime := clock w;
                  namelist := Some (entries.*1) |}]> (dir_files dir) |} in
        (Ok tt,
         with_disk (with_output_dir (<[task_id := written]>
                      (output_dir (disk w))) (disk w)) w)
    end.

(** Returns the name of the archive inside the task directory, [None]
    for the source's [None]. *)
Definition _create_archive (task_id : string) (files : list string)
  : M (option string) :=
  try_except
    (create_zip task_id files;;
     others during_archive;;
     w ← get_world;
     mret (if file_exists task_id (archive_name task_id) (disk w)
           then Some (archive_name task_id) else None))
    (λ _, mret None).

(** [cleanup_file(file_path)] of [app/utils/file_handler.py], on an
    upload: errors are printed, not raised. *)
Definition cleanup_file (name : string) : M unit :=
  λ w,
    match upload_dir (disk w) !! name with
    | None => (Ok tt, w)
    | Some _ =>
        match unlink name (disk w) with
        | Some d => (Ok tt, with_disk d w)
        | None => (Ok tt, w)
        end
    end.

(** ** Orchestrator: [VideoProcessor._process_task] *)

(** The statements of the [try] block after the loop. *)
Definition finish_task (task_id input_file : string)
    (created_files : list string) : M unit :=
  (match created_files with
   | [] => mret tt
   | _ =>
       archive_path ← _create_archive task_id created_files;
       w ← get_world;
       match archive_path with
       | Some name =>
           if file_exists task_id name (disk w)
           then task_update task_id (set_archive name)
           else mret tt
       | None => mret tt
       end
   end);;
  t ← now;
  task_update task_id (update_completed t);;
  cleanup_file input_file.

(** The [except Exception as e] block. *)
Definition on_exception (task_id input_file : string) (e : Exn) : M unit :=
  t ← now;
  task_update task_id (update_failed (exn_str e) t);;
  cleanup_file input_file.

Definition _process_task (task_id input_file : string) (copies_count : Z)
    (output_format : string) : M unit :=
  try_except
    (created_files ← copy_loop task_id input_file copies_count
                       output_format (seqZ 1 copies_count) [];
     finish_task task_id input_file created_files)
    (on_exception task_id input_file).

(** [VideoProcessor.process_video], for the task id [uuid.uuid4()]
    returned; the spawned [_process_task] is started by the caller of
    this definition. *)
Definition process_video (task_id input_file : string) (copies_count : Z)
    (output_format : string) : M string :=
  λ w,
    let d := disk w in
    let dirs :=
      match output_dir d !! task_id with
      | Some _ => output_dir d
      | None => <[task_id := {| dir_mtime := clock w; dir_files := ∅ |}]>
                  (output_dir d)
      end in
    let task :=
      {| status := processing; progress := 0; total := copies_count;
         files := []; created_at := clock w; last_accessed := clock w;
         task_dir := task_dir_path task_id;
         input_file := upload_path input_file;
         archive := None; error := None; completed_at := None |} in
    (Ok task_id,
     with_tasks (<[task_id := task]> (active_tasks w))
       (with_disk (with_output_dir dirs d) w)).

(** A submission followed by its orchestration run. *)
Definition run_job (task_id input_file : string) (copies_count : Z)
    (output_format : string) : M unit :=
  process_video task_id input_file copies_count output_format;;
  _process_task task_id input_file copies_count output_format.
(** ** What the properties of the orchestration run speak of *)

(** The other coroutines leave the run alone: at every suspension the
    [await] returns normally and the record of the task is still
    registered, with the [progress] and the [files] it had. (A status
    query, which only refreshes [last_accessed], is of that kind; a
    deletion of the task is not.) *)
Definition undisturbed (task_id : string) : Prop :=
  ∀ p w, ∃ w',
    others p w = (Ok tt, w')
    ∧ ∀ t, active_tasks w !! task_id = Some t →
           ∃ t', active_tasks w' !! task_id = Some t'
                 ∧ progress t' = progress t ∧ files t' = files t.

(** The value of [success and output_path.exists()] for copy [i] started
    in world [w], when the [await] of the encode returns normally. *)
Definition attempt_succeeds (task_id input_file : string) (copies_count : Z)
    (output_format : string) (i : Z) (w : World) : bool :=
  let '(success, w1) :=
    create_unique_copy input_file task_id (output_filename i output_format)
      i copies_count w in
  let '(_, w2) := others (during_encode i) w1 in
  match success with
  | Ok true => file_exists task_id (output_filename i output_format) (disk w2)
  | _ => false
  end.
End Processor.

(** What the endpoints of [app/main.py] answer. An [HTTPException] is
    raised, not returned. [DeleteTaskResponse] carries the bytes freed, of
    which the source reports [round(freed_space / (1024 * 1024), 2)]. *)
Inductive Response :=
  | ProcessStatus (task_id status : string) (progress total_copies : Z)
      (message : option string)
  | FileResponse (path filename media_type : string)
  | DeleteTaskResponse (freed_space : Z).

Section Service.
Context `{PyRuntime}.

(** ** TaskStore: [get_task_status], [get_task_files] *)

Definition get_task_status (task_id : string) : M (option Task) :=
  λ w,
    match active_tasks w !! task_id with
    | Some t =>
        let t' := set_last_accessed (clock w) t in
        (Ok (Some t'), with_tasks (<[task_id := t']> (active_tasks w)) w)
    | None => (Ok None, w)
    end.

(** Returns the task id when its directory exists, which stands for the
    path [settings.output_dir / task_id]. *)
Definition get_task_files (task_id : string) : M (option string) :=
  λ w,
    let w' :=
      match active_tasks w !! task_id with
      | Some t =>
          with_tasks (<[task_id := set_last_accessed (clock w) t]>
                        (active_tasks w)) w
      | None => w
      end in
    if dir_exists task_id (disk w') then (Ok (Some task_id), w')
    else (Ok None, w').

(** ** RetentionSweeper: [VideoProcessor.cleanup_old_tasks] *)

(** [timedelta(hours=hours)] *)
Definition timedelta_hours (hours : Z) : Z := hours * 3600000000.

(** The ids the first loop appends to [tasks_to_remove]. *)
Definition tasks_to_remove (cutoff_time : Z) (tasks : gmap string Task)
  : list string :=
  (filter (λ kv, last_accessed kv.2 < cutoff_time) (map_to_list tasks)).*1.

(** What the first loop does for one id of [tasks_to_remove]; the state
    is [(cleaned_count, freed_space)] and the disk. *)
Definition sweep_task_dir (acc : Z * Z * Disk) (task_id : string)
  : Z * Z * Disk :=
  let '(cleaned_count, freed_space, d) := acc in
  match output_dir d !! task_id with
  | None => acc
  | Some dir =>
      let freed_space := freed_space + dir_size dir in
      match rmtree task_id d with
      | Some d' => (cleaned_count + 1, freed_space, d')
      | None => (cleaned_count, freed_space, d)
      end
  end.

(** The body of the scan of [settings.output_dir] for one directory. *)
Definition sweep_orphan (tasks : gmap string Task) (cutoff_time : Z)
    (acc : Z * Z * Disk) (entry : string * Dir) : Z * Z * Disk :=
  let '(cleaned_count, freed_space, d) := acc in
  let '(task_id, dir) := entry in
  match tasks !! task_id with
  | Some _ => acc
  | None =>
      if dir_mtime dir <? cutoff_time then
        match rmtree task_id d with
        | Some d' => (cleaned_count + 1, freed_space + dir_size dir, d')
        | None => acc
        end
      else acc
  end.

(** The body of the scan of [settings.upload_dir] for one file. *)
Definition sweep_upload (cutoff_time : Z) (acc : Z * Disk)
    (entry : string * File) : Z * Disk :=
  let '(freed_space, d) := acc in
  let '(name, f) := entry in
  if st_mtime f <? cutoff_time then
    match unlink name d with
    | Some d' => (freed_space + st_size f, d')
    | None => acc
    end
  else acc.

(** Returns [(cleaned_count, freed_space)]. *)
Definition cleanup_old_tasks (hours : Z) : M (Z * Z) :=
  λ w,
    let cutoff_time := clock w - timedelta_hours hours in
    let tasks_to_remove := tasks_to_remove cutoff_time (active_tasks w) in
    let '(cleaned_count, freed_space, d1) :=
      foldl sweep_task_dir (0, 0, disk w) tasks_to_remove in
    let tasks := foldl (λ m task_id, delete task_id m) (active_tasks w)
                   tasks_to_remove in
    let '(cleaned_count, freed_space, d2) :=
      foldl (sweep_orphan tasks cutoff_time)
        (cleaned_count, freed_space, d1) (map_to_list (output_dir d1)) in
    let '(freed_space, d3) :=
      foldl (sweep_upload cutoff_time) (freed_space, d2)
        (map_to_list (upload_dir d2)) in
    (Ok (cleaned_count, freed_space), with_tasks tasks (with_disk d3 w)).

(** ** The task endpoints of [app/main.py] *)

Definition get_status (task_id : string) : M Response :=
  task ← get_task_status task_id;
  match task with
  | None => raise (HTTPException 404 "Задача не найдена")
  | Some task =>
      mret (ProcessStatus task_id (status_str (status task))
              (progress task) (total task) (error task))
  end.

Definition cleanup_task_after_download (task_id : string) : M unit :=
  λ w,
    let removed :=
      match output_dir (disk w) !! task_id with
      | Some _ => rmtree task_id (disk w)
      | None => Some (disk w)
      end in
    match removed with
    | Some d =>
        (Ok tt, with_tasks (delete task_id (active_tasks w)) (with_disk d w))
    | None => (Ok tt, w)
    end.

(** The response, and the task ids for which
    [background_tasks.add_task(cleanup_task_after_download, task_id)]
    was called. *)
Definition download_archive (task_id : string)
  : M (Response * list string) :=
  task ← get_task_status task_id;
  match task with
  | None => raise (HTTPException 404 "Задача не найдена")
  | Some task =>
      if decide (status task ≠ completed) then
        raise (HTTPException 400
                 ("Задача не завершена. Статус: "
                  +:+ status_str (status task)))
      else
        match archive task with
        | None => raise (HTTPException 404 "Архив не готов")
        | Some "" => raise (HTTPException 404 "Архив не готов")
        | Some name =>
            task_dir ← get_task_files task_id;
            match task_dir with
            | None =>
                raise (HTTPException 404 "Директория задачи не найдена")
            | Some dir =>
                w ← get_world;
                match output_file dir name (disk w) with
                | None =>
                    raise (HTTPException 404 "Архив не найден на диске")
                | Some f =>
                    if st_size f =? 0 then
                      raise (HTTPException 500 "Архив пустой")
                    else
                      mret (FileResponse (output_path_str dir name)
                              ("unique_videos_" +:+ task_id +:+ ".zip")
                              "application/zip",
                            [task_id])
                end
            end
        end
  end.

(** The request as the server handles it: the response is sent, then
    the background tasks run. *)
Definition serve_download_archive (task_id : string) : M Response :=
  '(response, background) ← download_archive task_id;
  foldr (λ id rest, cleanup_task_after_download id;; rest) (mret tt)
    background;;
  mret response.

Definition download_file (task_id filename : string) : M Response :=
  task_dir ← get_task_files task_id;
  match task_dir with
  | None => raise (HTTPException 404 "Задача не найдена")
  | Some dir =>
      w ← get_world;
      if file_exists dir filename (disk w) then
        mret (FileResponse (output_path_str dir filename) filename
                "application/octet-stream")
      else raise (HTTPException 404 "Файл не найден")
  end.

(** [del processor.active_tasks[task_id]], guarded by
    [if task_id in processor.active_tasks]. *)
Definition del_task (task_id : string) : M unit :=
  λ w, (Ok tt, with_tasks (delete task_id (active_tasks w)) w).

(** [if task_dir and task_dir.exists(): freed_space = ...;
    shutil.rmtree(task_dir)], the exception of [rmtree] not caught. *)
Definition delete_task_dir (task_dir : option string) : M Z :=
  λ w,
    match task_dir with
    | None => (Ok 0, w)
    | Some dir =>
        match output_dir (disk w) !! dir with
        | None => (Ok 0, w)
        | Some d =>
            match rmtree dir (disk w) with
            | Some d' => (Ok (dir_size d), with_disk d' w)
            | None => (Raise (OSError "rmtree failed"), w)
            end
        end
    end.

Definition delete_task (task_id : string) : M Response :=
  task_dir ← get_task_files task_id;
  freed_space ← delete_task_dir task_dir;
  del_task task_id;;
  mret (DeleteTaskResponse freed_space).
End Service.

(** ** The other endpoints: results and storage *)

(** The response model [ProcessResult] of [app/models.py]. *)
Record ProcessResult := {
  result_task_id : string;
  result_status : string;
  result_files : list string;
  archive_url : option string
}.

(** The dictionary [VideoProcessor.get_storage_info] returns. *)
Record StorageInfo := {
  total_size_bytes : Z;
  total_size_mb : float;
  total_size_gb : float;
  file_count : Z;
  task_count : Z
}.

Section Reports.
Context `{PyRuntime}.

(** [round(x, 2)] of a float. *)
Variable round2 : float → float.

(** [get_result] of [app/main.py]. *)
Definition get_result (task_id : string) : M ProcessResult :=
  task ← get_task_status task_id;
  match task with
  | None => raise (HTTPException 404 "Задача не найдена")
  | Some task =>
      if decide (status task ≠ completed) then
        raise (HTTPException 400
                 ("Задача еще не завершена. Статус: "
                  +:+ status_str (status task)))
      else
        let archive_url :=
          match archive task with
          | None => None
          | Some "" => None
          | Some _ => Some ("/api/download/archive/" +:+ task_id)
          end in
        mret {| result_task_id := task_id;
                result_status := status_str (status task);
                result_files := files task;
                archive_url := archive_url |}
  end.

(** The two counters of [get_storage_info] after the files of one
    directory: [total_size += f.stat().st_size; file_count += 1]. *)
Definition count_dir (acc : Z * Z) (entry : string * Dir) : Z * Z :=
  foldl (λ acc f, (acc.1 + st_size f.2, acc.2 + 1)) acc
    (map_to_list (dir_files entry.2)).

(** [VideoProcessor.get_storage_info] *)
Definition get_storage_info : M StorageInfo :=
  λ w,
    let '(total_size, file_count) :=
      foldl count_dir (0, 0) (map_to_list (output_dir (disk w))) in
    (Ok {| total_size_bytes := total_size;
           total_size_mb :=
             round2 (float_of_Z total_size / float_of_Z (1024 * 1024));
           total_size_gb :=
             round2 (float_of_Z total_size
                     / float_of_Z (1024 * 1024 * 1024));
           file_count := file_count;
           task_count := Z.of_nat (size (active_tasks w)) |}, w).
End Reports.

(** ** A small runtime and environment, to run the model on examples *)

(** The generator of the sample runtime is linear congruential. *)
Definition lcg_next (s : Z) : Z := (1103515245 * s + 12345) mod 2147483648.

(** The sample rendering of a float is exact: sign, integer mantissa and
    binary exponent. Like [repr], it tells any two finite floats apart. *)
Definition exact_float_str (x : float) : string :=
  match Prim2SF x with
  | S754_zero s => if s then "-0.0" else "0.0"
  | S754_infinity s => if s then "-inf" else "inf"
  | S754_nan => "nan"
  | S754_finite s m e =>
      (if s then "-" else "") +:+ pretty (Z.pos m) +:+ "*2**" +:+ pretty e
  end.

(** In the sample runtime the hash and the date rendering keep their
    argument readable, and an archive takes a 22-byte end record plus its
    members stored as they are. *)
Definition sample_runtime : PyRuntime :=
  {| rng_state := Z;
     random_seed := λ n, n;
     random_random := λ s,
       ((float_of_Z (lcg_next s) / 2147483648)%float, lcg_next s);
     random_randbelow := λ n s, (lcg_next s mod n, lcg_next s);
     random_randbelow_range := λ n g, Z.mod_pos_bound (lcg_next g) n;
     sha256_hexdigest := λ s, "sha256(" +:+ s +:+ ")";
     float_str := exact_float_str;
     fromtimestamp_isoformat :=
       λ t, "datetime(" +:+ exact_float_str t +:+ ")";
     zip_st_size := λ entries, foldr (λ e acc, e.2 + acc) 22 entries |}.

(** [s.split(c)] for a single character [c]. *)
Fixpoint split_on (c : Ascii.ascii) (s : string) : list string :=
  match s with
  | EmptyString => [EmptyString]
  | String a s' =>
      if Ascii.eqb a c then EmptyString :: split_on c s'
      else match split_on c s' with
           | [] => [String a EmptyString]
           | p :: ps => String a p :: ps
           end
  end.

(** A sample encoder. It reads the output path off the end of the
    command and cuts it at the slashes (character 47). It fails, writing
    nothing, on the file names of [failing] and when the task directory is
    missing; otherwise it writes a file of [size] bytes, exits with
    status 0, and the call returns. *)
Definition sample_ffmpeg (failing : list string) (size : Z)
    (command : list string) (d : Disk) : bool * Disk :=
  match split_on (Ascii.Ascii true true true true false true false false)
          (List.last command "") with
  | ["outputs"; task_id; filename] =>
      if bool_decide (filename ∈ failing) then (false, d)
      else
        match output_dir d !! task_id with
        | None => (false, d)
        | Some dir =>
            let f := {| st_size := size; st_mtime := dir_mtime dir;
                        namelist := None |} in
            (true,
             with_output_dir
               (<[task_id := {| dir_mtime := dir_mtime dir;
                                dir_files := <[filename := f]> (dir_files dir)
                             |}]> (output_dir d)) d)
        end
  | _ => (false, d)
  end.

(** An empty disk with an upload [input.mp4] of 1000 bytes. *)
Definition sample_disk : Disk :=
  {| output_dir := ∅;
     upload_dir := {[ "input.mp4" :=
       {| st_size := 1000; st_mtime := 0; namelist := None |} ]};
     locked_dirs := ∅;
     locked_uploads := ∅ |}.

Section Samples.
#[local] Existing Instance sample_runtime.

(** No other coroutine runs, no [await] raises. *)
Definition quiet : AwaitPoint → M unit := λ _, mret tt.

(** The [await] of the encode of copy [i] raises into the coroutine. *)
Definition raising_at (i : Z) : AwaitPoint → M unit :=
  λ p, match p with
       | during_encode j =>
           if bool_decide (j = i) then raise (RuntimeError "worker lost")
           else mret tt
       | _ => mret tt
       end.

(** The world at a submission: nothing registered, the clock at
    2023-11-14 22:13:20 UTC. *)
Definition sample_world : World :=
  {| active_tasks := ∅; disk := sample_disk;
     clock := 1700000000000000; rng := 0 |}.

(** A task that completed, with an archive, 25 hours before the clock of
    [sample_world]; [finished_world locked] holds it and its directory,
    with [locked] the directories that cannot be removed. *)
Definition finished_task : Task :=
  {| status := completed; progress := 1; total := 1;
     files := ["video_001.mp4"];
     created_at := 1699910000000000; last_accessed := 1699910000000000;
     task_dir := "outputs/t"; input_file := "uploads/input.mp4";
     archive := Some "videos_t.zip"; error := None;
     completed_at := Some 1699910000000000 |}.

Definition finished_world (locked : gset string) : World :=
  {| active_tasks := {[ "t" := finished_task ]};
     disk :=
       {| output_dir := {[ "t" :=
            {| dir_mtime := 1699910000000000;
               dir_files :=
                 {[ "video_001.mp4" :=
                      {| st_size := 500; st_mtime := 1699910000000000;
                         namelist := None |};
                    "videos_t.zip" :=
                      {| st_size := 522; st_mtime := 1699910000000000;
                         namelist := Some ["video_001.mp4"] |} ]} |} ]};
          upload_dir := ∅;
          locked_dirs := locked;
          locked_uploads := ∅ |};
     clock := 1700000000000000; rng := 0 |}.

(** The scenario of a job of three copies of which the second fails to
    encode: the encoder, the world the submission leaves, the world after
    the first [k] passes of the loop, and the whole job. *)
Definition scenario_ffmpeg : list string → Disk → bool * Disk :=
  sample_ffmpeg ["video_002.mp4"] 500.

Definition scenario_submitted : World :=
  (process_video "t" "input.mp4" 3 "mp4" sample_world).2.

Definition scenario_after (k : Z) : World :=
  (copy_loop scenario_ffmpeg quiet "t" "input.mp4" 3 "mp4" (seqZ 1 k) []
     scenario_submitted).2.

Definition scenario_job : Result unit * World :=
  run_job scenario_ffmpeg quiet "t" "input.mp4" 3 "mp4" sample_world.

(** A world whose registry is empty while the directory of task [t] is
    still on the disk. *)
Definition orphan_world : World :=
  with_tasks ∅ (finished_world ∅).

(** The directory of task [t] in [finished_world]. *)
Definition finished_dir : Dir :=
  {| dir_mtime := 1699910000000000;
     dir_files :=
       {[ "video_001.mp4" :=
            {| st_size := 500; st_mtime := 1699910000000000;
               namelist := None |};
          "videos_t.zip" :=
            {| st_size := 522; st_mtime := 1699910000000000;
               namelist := Some ["video_001.mp4"] |} ]} |}.
End Samples.

(** * Properties *)

(** ** The renderings, on a few values *)

Example fmt_03d_values :
  fmt_03d 7 = "007" ∧ fmt_03d 42 = "042" ∧ fmt_03d 100 = "100"
  ∧ fmt_03d 1234 = "1234" ∧ fmt_03d (-5) = "-05".
Proof. vm_compute. repeat split; reflexivity. Qed.

Example join_values :
  join "," [] = "" ∧ join "," ["a"] = "a" ∧ join "," ["a"; "b"; "c"] = "a,b,c".
Proof. repeat split; reflexivity. Qed.

Example timestamp_values :
  timestamp 1700000000000000 = 1700000000%float
  ∧ timestamp 1700000000500000 = 1700000000.5%float
  ∧ float_of_Z (-3) = (-3)%float.
Proof. vm_compute. repeat split; reflexivity. Qed.

Example path_values :
  output_path_str "t" "video_001.mp4" = "outputs/t/video_001.mp4"
  ∧ upload_path "input.mp4" = "uploads/input.mp4"
  ∧ timedelta_hours 24 = 86400000000.
Proof. repeat split; reflexivity. Qed.

(** ** ParameterGenerator *)

(** Splits every draw of the goal into its value and the next state. *)
Ltac split_draws :=
  repeat match goal with
         | |- context [random_randbelow ?n ?g] =>
             destruct (random_randbelow n g)
         | |- context [random_random ?g] => destruct (random_random g)
         end.

(** The same, keeping for every integer draw the range it falls in. *)
Ltac split_bounded_draws :=
  repeat match goal with
         | |- context [random_randbelow ?n ?g] =>
             let Hdraw := fresh "Hdraw" in
             pose proof (random_randbelow_range n g ltac:(cbn; lia)) as Hdraw;
             destruct (random_randbelow n g); cbn [fst] in Hdraw
         | |- context [random_random ?g] => destruct (random_random g)
         end.

Section GeneratorProperties.
Context `{PyRuntime}.

(** X1. The discrete fields of every recipe are in the ranges the
    generator draws them from: the quality factor in 17..23, the GOP size
    in 240..260, 2 to 4 B-frames, 3 to 5 reference frames, the preset, the
    audio bitrate and the pixel format among the listed values; and the
    recipe carries the copy number it was made for. *)
Lemma generate_ranges now i total_copies g :
  let r := (_generate_unique_params now i total_copies g).1 in
  17 ≤ crf r ≤ 23
  ∧ 240 ≤ gop_size r ≤ 260
  ∧ 2 ≤ b_frames r ≤ 4
  ∧ 3 ≤ ref_frames r ≤ 5
  ∧ preset r ∈ ["slower"; "slow"; "medium"]
  ∧ audio_bitrate r ∈ ["192k"; "256k"; "320k"]
  ∧ pixel_format r ∈ ["yuv420p"; "yuv420p10le"]
  ∧ copy_number r = i.
Proof.
  cbv zeta.
  unfold _generate_unique_params, mbind, rand_bind, mret, rand_ret, seed,
    choice, uniform, randint, random.
  split_bounded_draws.
  cbn [fst crf gop_size b_frames ref_frames preset audio_bitrate
       pixel_format copy_number].
  repeat split; try lia; apply list_elem_of_In, nth_In; cbn [length] in *;
    lia.
Qed.

(** The generator starts from [random.seed(copy_number)], so the state
    the module was in before the call has no influence. *)
Lemma generate_forgets_rng now copy_number total_copies g1 g2 :
  _generate_unique_params now copy_number total_copies g1
  = _generate_unique_params now copy_number total_copies g2.
Proof. reflexivity. Qed.

(** The draws do not involve the clock. *)
Lemma generate_sampled_fields now1 now2 copy_number t1 t2 g1 g2 :
  sampled_fields (_generate_unique_params now1 copy_number t1 g1).1
  = sampled_fields (_generate_unique_params now2 copy_number t2 g2).1
  ∧ (_generate_unique_params now1 copy_number t1 g1).2
    = (_generate_unique_params now2 copy_number t2 g2).2.
Proof.
  unfold _generate_unique_params, mbind, rand_bind, mret, rand_ret, seed,
    choice, uniform, randint, random.
  split_draws. split; reflexivity.
Qed.

(** C1, as amended. For a copy index of 1..100 and any two values of
    [total_copies], two calls of the generator return the same recipe
    when they read the same clock value, whatever state the random
    source was in; when the clock differs between the calls, the fields
    drawn from the source seeded with the copy index (and the state the
    source is left in) are still the same, while [creation_time] and
    [unique_id] are computed from the clock reading. *)
Theorem generate_deterministic_up_to_clock
    (copy_number t1 t2 now1 now2 : Z) (g1 g2 : rng_state) :
  1 ≤ copy_number ≤ 100 →
  (now1 = now2 →
   _generate_unique_params now1 copy_number t1 g1
   = _generate_unique_params now2 copy_number t2 g2)
  ∧ sampled_fields (_generate_unique_params now1 copy_number t1 g1).1
    = sampled_fields (_generate_unique_params now2 copy_number t2 g2).1
  ∧ (_generate_unique_params now1 copy_number t1 g1).2
    = (_generate_unique_params now2 copy_number t2 g2).2.
Proof.
  intros _. split.
  - intros ->. reflexivity.
  - apply generate_sampled_fields.
Qed.

(** C9. The recipe does not depend on [total_copies]: with the same
    clock reading and the same state of the random source, any two
    values of it give the same recipe and leave the source in the same
    state. *)
Theorem generate_ignores_total_copies
    (now copy_number t1 t2 : Z) (g : rng_state) :
  _generate_unique_params now copy_number t1 g
  = _generate_unique_params now copy_number t2 g.
Proof. reflexivity. Qed.
End GeneratorProperties.

Section GeneratorExamples.
#[local] Existing Instance sample_runtime.

Lemma generate_deterministic_up_to_clock_witness :
  1 ≤ 7 ≤ 100
  ∧ _generate_unique_params 1700000000000000 7 3 (0 : Z)
    = _generate_unique_params 1700000000000000 7 10 (42 : Z).
Proof.
  split; [lia |].
  apply (generate_deterministic_up_to_clock (H := sample_runtime) 7 3 10
           1700000000000000 1700000000000000 (0 : Z) (42 : Z));
    [lia | reflexivity].
Defined.

(** C1, as stated, fails. Copy 1 generated when the clock reads
    1700000000 s and generated again one second later within the same
    run: [creation_time] is the rendering of 1700000001.0 the first time
    and of 1700000002.0 the second, and [unique_id] hashes a different
    string. *)
Lemma generate_reads_clock :
  let first := (_generate_unique_params 1700000000000000 1 3 (0 : Z)).1 in
  let second := (_generate_unique_params 1700000001000000 1 3 (0 : Z)).1 in
  first ≠ second
  ∧ creation_time first ≠ creation_time second
  ∧ unique_id first ≠ unique_id second.
Proof.
  cbv zeta. split; [| split].
  - intros Heq. apply (f_equal creation_time) in Heq.
    vm_compute in Heq. discriminate Heq.
  - vm_compute. discriminate.
  - vm_compute. discriminate.
Qed.
End GeneratorExamples.

(** ** EncodeInvoker *)

Section CommandProperties.
Context `{PyRuntime}.

Lemma scale_filter_not_crop params shift_x shift_y :
  scale_filter params ≠ crop_filter shift_x shift_y.
Proof. unfold scale_filter, crop_filter. simpl. discriminate. Qed.

Lemma scale_filter_not_pad params : scale_filter params ≠ pad_filter.
Proof. unfold scale_filter, pad_filter. simpl. discriminate. Qed.

(** What [video_filters] holds, by the test on the scale factor. *)
Lemma video_filters_cases params shift_x shift_y :
  video_filters params shift_x shift_y
  = if (0.0001 <? PrimFloat.abs (scale_factor params - 1.0))%float
    then [scale_filter params; crop_filter shift_x shift_y; pad_filter]
    else [crop_filter shift_x shift_y; pad_filter].
Proof.
  unfold video_filters, scale_is_visible.
  destruct (0.0001 <? PrimFloat.abs (scale_factor params - 1.0))%float;
    reflexivity.
Qed.

(** C7. For every recipe (so for every generated one), the command
    carries a [-vf] argument whose value is the comma-joined filter chain.
    The chain always ends with the step [crop=iw-1:ih-1:x:y], which crops
    the frame by one pixel in each dimension at the offset drawn for the
    copy, immediately followed by the step [pad=iw+1:ih+1:0:0], which pads
    it back to the original size. The step
    [scale=iw*s:ih*s:flags=lanczos] comes before them if and only if
    [abs(scale_factor - 1.0) > 0.0001], and nothing else is in the chain:
    the value of [-vf] is [crop,pad] or [scale,crop,pad]. *)
Theorem filter_chain_crop_pad_and_optional_scale
    (input_path output_path : string) (params : Recipe) (g : rng_state) :
  let command :=
    (_build_ffmpeg_command input_path output_path params g).1 in
  let shift_x := (-0.5 + (0.5 - -0.5) * (random_random g).1)%float in
  let shift_y :=
    (-0.5 + (0.5 - -0.5) * (random_random (random_random g).2).1)%float in
  let crop :=
    "crop=iw-1:ih-1:" +:+ float_str shift_x +:+ ":" +:+ float_str shift_y in
  let pad := "pad=iw+1:ih+1:0:0" in
  let scale :=
    "scale=iw*" +:+ float_str (scale_factor params) +:+ ":ih*"
    +:+ float_str (scale_factor params) +:+ ":flags=lanczos" in
  let visible :=
    (0.0001 <? PrimFloat.abs (scale_factor params - 1.0))%float in
  ∃ chain : list string,
    command !! 4%nat = Some "-vf"
    ∧ command !! 5%nat = Some (join "," chain)
    ∧ chain = (if visible then [scale] else []) ++ [crop; pad]
    ∧ (scale ∈ chain ↔ visible = true)
    ∧ crop ∈ chain
    ∧ pad ∈ chain
    ∧ command !! 5%nat
      = Some (if visible then scale +:+ "," +:+ crop +:+ "," +:+ pad
              else crop +:+ "," +:+ pad)
    ∧ chain = video_filters params shift_x shift_y
    ∧ crop_filter shift_x shift_y = crop
    ∧ pad_filter = pad
    ∧ scale_filter params = scale.
Proof.
  cbv zeta.
  unfold _build_ffmpeg_command, mbind, rand_bind, mret, rand_ret, uniform.
  destruct (random_random g) as [r1 g1]. cbn [fst snd].
  destruct (random_random g1) as [r2 g2]. cbn [fst snd].
  rewrite video_filters_cases.
  destruct (0.0001 <? PrimFloat.abs (scale_factor params - 1.0))%float
    eqn:Hvisible; eexists; cbn [fst app lookup list_lookup];
    (split; [reflexivity |]); (split; [reflexivity |]);
    (split; [reflexivity |]).
  - split; [split; [reflexivity | intros _; apply list_elem_of_here] |].
    split; [apply list_elem_of_further, list_elem_of_here |].
    split; [do 2 apply list_elem_of_further; apply list_elem_of_here |].
    repeat split; reflexivity.
  - split.
    { split; [| discriminate]. intros Hin. exfalso.
      apply elem_of_cons in Hin as [Heq | Hin];
        [exact (scale_filter_not_crop _ _ _ Heq) |].
      apply elem_of_cons in Hin as [Heq | Hin];
        [exact (scale_filter_not_pad _ Heq) |].
      inversion Hin. }
    split; [apply list_elem_of_here |].
    split; [apply list_elem_of_further, list_elem_of_here |].
    repeat split; reflexivity.
Qed.
End CommandProperties.

(** ** Individual-file download *)

Section DownloadFileProperties.
Context `{PyRuntime}.

Lemma file_exists_dir_exists task_id filename d :
  file_exists task_id filename d = true → dir_exists task_id d = true.
Proof.
  unfold file_exists, dir_exists, output_file. intros Hfile.
  apply bool_decide_eq_true. apply bool_decide_eq_true in Hfile.
  destruct (output_dir d !! task_id); [eauto | destruct Hfile; discriminate].
Qed.

(** [get_task_files] answers from the disk and leaves the disk alone; the
    registry only gets its access time refreshed. *)
Lemma get_task_files_result task_id w :
  (get_task_files task_id w).1
  = Ok (if dir_exists task_id (disk w) then Some task_id else None)
  ∧ disk (get_task_files task_id w).2 = disk w.
Proof.
  unfold get_task_files.
  destruct (active_tasks w !! task_id); cbn [disk with_tasks];
    destruct (dir_exists task_id (disk w)); split; reflexivity.
Qed.

(** How [download_file] answers, by what is on the disk. *)
Lemma download_file_cases task_id filename w :
  ∃ w', disk w' = disk w
    ∧ (active_tasks w !! task_id = None → w' = w)
    ∧ download_file task_id filename w =
        if dir_exists task_id (disk w) then
          if file_exists task_id filename (disk w) then
            (Ok (FileResponse (output_path_str task_id filename) filename
                   "application/octet-stream"), w')
          else (Raise (HTTPException 404 "Файл не найден"), w')
        else (Raise (HTTPException 404 "Задача не найдена"), w').
Proof.
  unfold download_file, mbind, M_bind, get_world, mret, M_ret, raise.
  destruct (get_task_files_result task_id w) as [Hres Hdisk].
  destruct (get_task_files task_id w) as [r w'] eqn:Hget.
  cbn [fst snd] in Hres, Hdisk. subst r.
  exists w'. split; [exact Hdisk |]. split.
  - intros Hnone. unfold get_task_files in Hget. rewrite Hnone in Hget.
    destruct (dir_exists task_id (disk w)); congruence.
  - destruct (dir_exists task_id (disk w)); cbv beta iota;
      [| reflexivity].
    rewrite Hdisk.
    destruct (file_exists task_id filename (disk w)); reflexivity.
Qed.

(** C10. [download_file] decides by the disk alone. When the file exists
    in the task's directory it is served, in particular for a task id the
    registry does not know (and then nothing changes); a 404 is raised
    exactly when the directory or the file in it does not exist; and two
    worlds with the same disk get the same answer whatever their
    registries hold. *)
Theorem download_file_resolves_by_disk
    (task_id filename : string) (w : World) :
  (file_exists task_id filename (disk w) = true →
   ∃ w', download_file task_id filename w
         = (Ok (FileResponse (output_path_str task_id filename) filename
                  "application/octet-stream"), w'))
  ∧ (active_tasks w !! task_id = None →
     file_exists task_id filename (disk w) = true →
     download_file task_id filename w
     = (Ok (FileResponse (output_path_str task_id filename) filename
              "application/octet-stream"), w))
  ∧ ((dir_exists task_id (disk w) = false
      ∨ file_exists task_id filename (disk w) = false)
     ↔ ∃ detail w', download_file task_id filename w
                    = (Raise (HTTPException 404 detail), w'))
  ∧ (∀ w2 : World, disk w2 = disk w →
     (download_file task_id filename w2).1
     = (download_file task_id filename w).1).
Proof.
  destruct (download_file_cases task_id filename w)
    as (w' & Hdisk & Hsame & Hrun).
  split; [| split; [| split]].
  - intros Hfile. exists w'. rewrite Hrun, Hfile.
    rewrite (file_exists_dir_exists _ _ _ Hfile). reflexivity.
  - intros Hnone Hfile. rewrite Hrun, Hfile, (Hsame Hnone).
    rewrite (file_exists_dir_exists _ _ _ Hfile). reflexivity.
  - rewrite Hrun. split.
    + intros [Hdir | Hfile].
      * rewrite Hdir. eauto.
      * rewrite Hfile. destruct (dir_exists task_id (disk w)); eauto.
    + intros (detail & w'' & Hraise).
      destruct (dir_exists task_id (disk w)); [| left; reflexivity].
      destruct (file_exists task_id filename (disk w));
        [discriminate Hraise | right; reflexivity].
  - intros w2 Hdisk2.
    destruct (download_file_cases task_id filename w2)
      as (w2' & _ & _ & Hrun2).
    rewrite Hrun, Hrun2, Hdisk2.
    destruct (dir_exists task_id (disk w)); [| reflexivity].
    destruct (file_exists task_id filename (disk w)); reflexivity.
Qed.
End DownloadFileProperties.

Section DownloadFileExamples.
#[local] Existing Instance sample_runtime.

Lemma download_file_resolves_by_disk_witness :
  active_tasks orphan_world !! "t" = None
  ∧ file_exists "t" "video_001.mp4" (disk orphan_world) = true
  ∧ download_file "t" "video_001.mp4" orphan_world
    = (Ok (FileResponse "outputs/t/video_001.mp4" "video_001.mp4"
             "application/octet-stream"), orphan_world).
Proof.
  split; [reflexivity |]. split; [reflexivity |].
  apply (download_file_resolves_by_disk (H := sample_runtime)
           "t" "video_001.mp4" orphan_world); reflexivity.
Defined.
End DownloadFileExamples.

(** ** RetentionSweeper *)

Section SweepProperties.
Context `{PyRuntime}.

Lemma lookup_foldl_delete (l : list string) (m : gmap string Task) k :
  foldl (λ m task_id, delete task_id m) m l !! k
  = if decide (k ∈ l) then None else m !! k.
Proof.
  revert m. induction l as [| x l IH]; intros m; simpl.
  - destruct (decide (k ∈ [])) as [Hin |]; [inversion Hin | reflexivity].
  - rewrite IH. destruct (decide (k ∈ l)) as [Hl | Hl].
    + rewrite decide_True; [reflexivity | by apply list_elem_of_further].
    + destruct (decide (k = x)) as [-> | Hne].
      * rewrite lookup_delete_eq.
        rewrite decide_True; [reflexivity | by apply list_elem_of_here].
      * rewrite lookup_delete_ne by congruence.
        rewrite decide_False; [reflexivity |].
        intros Hin. apply elem_of_cons in Hin as [? | ?]; contradiction.
Qed.

Lemma elem_of_tasks_to_remove cutoff_time (tasks : gmap string Task) k :
  k ∈ tasks_to_remove cutoff_time tasks
  ↔ ∃ t, tasks !! k = Some t ∧ last_accessed t < cutoff_time.
Proof.
  unfold tasks_to_remove. rewrite list_elem_of_fmap. split.
  - intros ([k' t] & -> & Hin). apply list_elem_of_filter in Hin as [Hold Hin].
    apply elem_of_map_to_list in Hin. exists t. split; assumption.
  - intros (t & Hlook & Hold). exists (k, t). split; [reflexivity |].
    apply list_elem_of_filter. split; [exact Hold |].
    apply elem_of_map_to_list. exact Hlook.
Qed.

(** The sweep never raises, and the registry it leaves is the registry it
    found minus the ids of [tasks_to_remove]. *)
Lemma cleanup_old_tasks_registry hours w :
  ∃ counts w',
    cleanup_old_tasks hours w = (Ok counts, w')
    ∧ active_tasks w'
      = foldl (λ m task_id, delete task_id m) (active_tasks w)
          (tasks_to_remove (clock w - timedelta_hours hours)
             (active_tasks w)).
Proof.
  unfold cleanup_old_tasks.
  destruct (foldl sweep_task_dir _ _) as [[c1 f1] d1].
  destruct (foldl (sweep_orphan _ _) _ _) as [[c2 f2] d2].
  destruct (foldl (sweep_upload _) _ _) as [f3 d3].
  eexists _, _. split; reflexivity.
Qed.

(** C4. For a threshold of [hours] hours and the clock reading [now] of
    the sweep, a task of the registry is removed when its [last_accessed]
    is strictly before [now - hours] and kept, unchanged, otherwise; no
    entry appears; the sweep returns its counts. In particular a task last
    accessed at [now - hours - epsilon] is removed and one last accessed
    at [now - hours + epsilon] is retained, for every [epsilon > 0]. *)
Theorem retention_sweep_removes_exactly_old
    (hours : Z) (w : World) (task_id : string) :
  let cutoff_time := clock w - timedelta_hours hours in
  let w' := (cleanup_old_tasks hours w).2 in
  (∃ counts, (cleanup_old_tasks hours w).1 = Ok counts)
  ∧ (∀ t, active_tasks w !! task_id = Some t →
          last_accessed t < cutoff_time →
          active_tasks w' !! task_id = None)
  ∧ (∀ t, active_tasks w !! task_id = Some t →
          cutoff_time ≤ last_accessed t →
          active_tasks w' !! task_id = Some t)
  ∧ (active_tasks w !! task_id = None → active_tasks w' !! task_id = None)
  ∧ (∀ t epsilon, 0 < epsilon →
       active_tasks w !! task_id = Some t →
       (last_accessed t = cutoff_time - epsilon →
        active_tasks w' !! task_id = None)
       ∧ (last_accessed t = cutoff_time + epsilon →
          active_tasks w' !! task_id = Some t)).
Proof.
  cbv zeta.
  destruct (cleanup_old_tasks_registry hours w) as (counts & w' & Hrun & Htasks).
  rewrite Hrun. cbn [fst snd]. rewrite Htasks.
  assert (Hold : ∀ t, active_tasks w !! task_id = Some t →
            last_accessed t < clock w - timedelta_hours hours →
            foldl (λ m id, delete id m) (active_tasks w)
              (tasks_to_remove (clock w - timedelta_hours hours)
                 (active_tasks w)) !! task_id = None).
  { intros t Hlook Hlt. rewrite lookup_foldl_delete.
    rewrite decide_True; [reflexivity |].
    apply elem_of_tasks_to_remove. eauto. }
  assert (Hnew : ∀ t, active_tasks w !! task_id = Some t →
            clock w - timedelta_hours hours ≤ last_accessed t →
            foldl (λ m id, delete id m) (active_tasks w)
              (tasks_to_remove (clock w - timedelta_hours hours)
                 (active_tasks w)) !! task_id = Some t).
  { intros t Hlook Hge. rewrite lookup_foldl_delete.
    rewrite decide_False; [exact Hlook |].
    intros Hin. apply elem_of_tasks_to_remove in Hin as (t' & Hlook' & Hlt).
    assert (t' = t) by congruence. subst t'. lia. }
  split; [eauto |]. split; [exact Hold |]. split; [exact Hnew |]. split.
  - intros Hnone. rewrite lookup_foldl_delete.
    case_decide; [reflexivity | exact Hnone].
  - intros t epsilon Hpos Hlook. split; intros Heq.
    + apply (Hold t Hlook). lia.
    + apply (Hnew t Hlook). lia.
Qed.
End SweepProperties.

Section SweepExamples.
#[local] Existing Instance sample_runtime.

Lemma retention_sweep_removes_exactly_old_witness :
  active_tasks (finished_world ∅) !! "t" = Some finished_task
  ∧ last_accessed finished_task
    < clock (finished_world ∅) - timedelta_hours 24
  ∧ clock (finished_world ∅) - timedelta_hours 26
    ≤ last_accessed finished_task
  ∧ active_tasks (cleanup_old_tasks 24 (finished_world ∅)).2 !! "t" = None
  ∧ active_tasks (cleanup_old_tasks 26 (finished_world ∅)).2 !! "t"
    = Some finished_task.
Proof.
  pose proof (retention_sweep_removes_exactly_old (H := sample_runtime)
                24 (finished_world ∅) "t") as H24.
  pose proof (retention_sweep_removes_exactly_old (H := sample_runtime)
                26 (finished_world ∅) "t") as H26.
  cbv zeta in H24, H26.
  destruct H24 as (_ & Hold & _). destruct H26 as (_ & _ & Hnew & _).
  assert (Hlook : active_tasks (finished_world ∅) !! "t"
                  = Some finished_task) by reflexivity.
  assert (Hlt : last_accessed finished_task
                < clock (finished_world ∅) - timedelta_hours 24)
    by (vm_compute; reflexivity).
  assert (Hge : clock (finished_world ∅) - timedelta_hours 26
                ≤ last_accessed finished_task)
    by (vm_compute; discriminate).
  split; [exact Hlook |]. split; [exact Hlt |]. split; [exact Hge |].
  split; [exact (Hold _ Hlook Hlt) | exact (Hnew _ Hlook Hge)].
Defined.
End SweepExamples.

(** ** Deleting a task: after a download, on request *)

Section RemovalProperties.
Context `{PyRuntime}.

Lemma rmtree_unlocked task_id d :
  task_id ∉ locked_dirs d →
  rmtree task_id d = Some (with_output_dir (delete task_id (output_dir d)) d).
Proof. intros Hfree. unfold rmtree. by rewrite decide_False. Qed.

Lemma rmtree_locked task_id d : task_id ∈ locked_dirs d → rmtree task_id d = None.
Proof. intros Hlocked. unfold rmtree. by rewrite decide_True. Qed.

(** The cleanup after a download removes the directory and the record,
    or, when the directory exists and its removal raises, neither. *)
Lemma cleanup_task_after_download_cases task_id w :
  (is_Some (output_dir (disk w) !! task_id)
   ∧ task_id ∈ locked_dirs (disk w)
   ∧ cleanup_task_after_download task_id w = (Ok tt, w))
  ∨ (¬ (is_Some (output_dir (disk w) !! task_id)
        ∧ task_id ∈ locked_dirs (disk w))
     ∧ ∃ w', cleanup_task_after_download task_id w = (Ok tt, w')
             ∧ output_dir (disk w') !! task_id = None
             ∧ active_tasks w' !! task_id = None).
Proof.
  unfold cleanup_task_after_download.
  destruct (output_dir (disk w) !! task_id) as [dir |] eqn:Hdir.
  - destruct (decide (task_id ∈ locked_dirs (disk w))) as [Hlocked | Hfree].
    + left. rewrite (rmtree_locked _ _ Hlocked). eauto.
    + right. split; [tauto |]. rewrite (rmtree_unlocked _ _ Hfree).
      eexists. split; [reflexivity |]. cbn.
      split; apply lookup_delete_eq.
  - right. split; [intros [[? ?] _]; discriminate |].
    eexists. split; [reflexivity |]. cbn.
    split; [exact Hdir | apply lookup_delete_eq].
Qed.

(** The explicit deletion removes the directory and the record, or, when
    the directory exists and its removal raises, fails with that error
    and keeps both. *)
Lemma delete_task_cases task_id w :
  (is_Some (output_dir (disk w) !! task_id)
   ∧ task_id ∈ locked_dirs (disk w)
   ∧ ∃ e w', delete_task task_id w = (Raise e, w')
             ∧ disk w' = disk w
             ∧ (is_Some (active_tasks w' !! task_id)
                ↔ is_Some (active_tasks w !! task_id)))
  ∨ (¬ (is_Some (output_dir (disk w) !! task_id)
        ∧ task_id ∈ locked_dirs (disk w))
     ∧ ∃ freed_space w',
         delete_task task_id w = (Ok (DeleteTaskResponse freed_space), w')
         ∧ output_dir (disk w') !! task_id = None
         ∧ active_tasks w' !! task_id = None).
Proof.
  unfold delete_task, mbind, M_bind, mret, M_ret, del_task, delete_task_dir,
    get_task_files, dir_exists.
  set (w1 := match active_tasks w !! task_id with
             | Some t => with_tasks (<[task_id := set_last_accessed (clock w) t]>
                                       (active_tasks w)) w
             | None => w
             end).
  assert (Hdisk : disk w1 = disk w)
    by (subst w1; destruct (active_tasks w !! task_id); reflexivity).
  assert (Hsome : is_Some (active_tasks w1 !! task_id)
                  ↔ is_Some (active_tasks w !! task_id)).
  { subst w1. destruct (active_tasks w !! task_id) eqn:Hlook.
    - cbn. rewrite lookup_insert_eq. split; eauto.
    - rewrite Hlook. reflexivity. }
  rewrite Hdisk.
  destruct (output_dir (disk w) !! task_id) as [dir |] eqn:Hdir.
  - rewrite bool_decide_eq_true_2 by eauto. rewrite Hdisk, Hdir.
    destruct (decide (task_id ∈ locked_dirs (disk w))) as [Hlocked | Hfree].
    + left. rewrite (rmtree_locked _ _ Hlocked). split; [eauto |].
      split; [exact Hlocked |]. eexists _, _. split; [reflexivity |].
      split; assumption.
    + right. split; [tauto |]. rewrite (rmtree_unlocked _ _ Hfree).
      eexists _, _. split; [reflexivity |]. cbn.
      split; apply lookup_delete_eq.
  - rewrite bool_decide_eq_false_2 by (intros [? ?]; discriminate).
    right. split; [intros [[? ?] _]; discriminate |].
    eexists _, _. split; [reflexivity |]. cbn. rewrite Hdisk.
    split; [exact Hdir | apply lookup_delete_eq].
Qed.

(** The sweep never removes a directory that cannot be removed. *)
Lemma rmtree_keeps_locked task_id d d' k :
  rmtree task_id d = Some d' →
  k ∈ locked_dirs d →
  locked_dirs d' = locked_dirs d ∧ output_dir d' !! k = output_dir d !! k.
Proof.
  unfold rmtree. intros Hrm Hlocked.
  destruct (decide (task_id ∈ locked_dirs d)) as [| Hfree]; [discriminate |].
  injection Hrm as <-. split; [reflexivity |].
  cbn [output_dir with_output_dir]. apply lookup_delete_ne. congruence.
Qed.

Lemma sweep_task_dir_keeps_locked k ids acc :
  k ∈ locked_dirs acc.2 →
  locked_dirs (foldl sweep_task_dir acc ids).2 = locked_dirs acc.2
  ∧ output_dir (foldl sweep_task_dir acc ids).2 !! k = output_dir acc.2 !! k.
Proof.
  revert acc. induction ids as [| id ids IH]; intros [[c f] d] Hlocked;
    [split; reflexivity |].
  cbn [foldl snd] in *.
  assert (Hstep : locked_dirs (sweep_task_dir (c, f, d) id).2 = locked_dirs d
                  ∧ output_dir (sweep_task_dir (c, f, d) id).2 !! k
                    = output_dir d !! k).
  { unfold sweep_task_dir. destruct (output_dir d !! id); [| split; reflexivity].
    destruct (rmtree id d) as [d' |] eqn:Hrm; [| split; reflexivity].
    exact (rmtree_keeps_locked _ _ _ _ Hrm Hlocked). }
  destruct Hstep as [Hl Ho].
  destruct (IH (sweep_task_dir (c, f, d) id)) as [Hl' Ho'];
    [rewrite Hl; exact Hlocked |].
  split; congruence.
Qed.

Lemma sweep_orphan_keeps_locked tasks cutoff_time k entries acc :
  k ∈ locked_dirs acc.2 →
  locked_dirs (foldl (sweep_orphan tasks cutoff_time) acc entries).2
  = locked_dirs acc.2
  ∧ output_dir (foldl (sweep_orphan tasks cutoff_time) acc entries).2 !! k
    = output_dir acc.2 !! k.
Proof.
  revert acc. induction entries as [| [id dir] entries IH];
    intros [[c f] d] Hlocked; [split; reflexivity |].
  cbn [foldl snd] in *.
  assert (Hstep :
    locked_dirs (sweep_orphan tasks cutoff_time (c, f, d) (id, dir)).2
    = locked_dirs d
    ∧ output_dir (sweep_orphan tasks cutoff_time (c, f, d) (id, dir)).2 !! k
      = output_dir d !! k).
  { unfold sweep_orphan. destruct (tasks !! id); [split; reflexivity |].
    destruct (dir_mtime dir <? cutoff_time); [| split; reflexivity].
    destruct (rmtree id d) as [d' |] eqn:Hrm; [| split; reflexivity].
    exact (rmtree_keeps_locked _ _ _ _ Hrm Hlocked). }
  destruct Hstep as [Hl Ho].
  destruct (IH (sweep_orphan tasks cutoff_time (c, f, d) (id, dir)))
    as [Hl' Ho']; [rewrite Hl; exact Hlocked |].
  split; congruence.
Qed.

Lemma sweep_upload_keeps_dirs cutoff_time entries acc :
  output_dir (foldl (sweep_upload cutoff_time) acc entries).2
  = output_dir acc.2.
Proof.
  revert acc. induction entries as [| [name f] entries IH]; intros [freed d];
    [reflexivity |].
  cbn [foldl snd]. rewrite IH. unfold sweep_upload.
  destruct (st_mtime f <? cutoff_time); [| reflexivity].
  unfold unlink. destruct (decide (name ∈ locked_uploads d)); reflexivity.
Qed.

(** C8, where the code departs from it. A registered task that is older
    than the threshold, whose directory exists and cannot be removed: the
    sweep catches and logs the error of [shutil.rmtree] and still deletes
    the registry entry, so that afterwards the directory is on the disk as
    it was and no record refers to it. *)
Theorem sweep_forgets_task_whose_directory_stays
    (hours : Z) (w : World) (task_id : string) (t : Task) (dir : Dir) :
  active_tasks w !! task_id = Some t →
  last_accessed t < clock w - timedelta_hours hours →
  output_dir (disk w) !! task_id = Some dir →
  task_id ∈ locked_dirs (disk w) →
  active_tasks (cleanup_old_tasks hours w).2 !! task_id = None
  ∧ output_dir (disk (cleanup_old_tasks hours w).2) !! task_id = Some dir.
Proof.
  intros Hlook Hold Hdir Hlocked. split.
  - destruct (cleanup_old_tasks_registry hours w)
      as (counts & w' & Hrun & Htasks).
    rewrite Hrun. cbn [snd]. rewrite Htasks, lookup_foldl_delete.
    rewrite decide_True; [reflexivity |].
    apply elem_of_tasks_to_remove. eauto.
  - unfold cleanup_old_tasks.
    pose proof (sweep_task_dir_keeps_locked task_id
                  (tasks_to_remove (clock w - timedelta_hours hours)
                     (active_tasks w)) (0, 0, disk w) Hlocked) as [Hl1 Ho1].
    destruct (foldl sweep_task_dir _ _) as [[c1 f1] d1].
    cbn [snd] in Hl1, Ho1.
    pose proof (sweep_orphan_keeps_locked
                  (foldl (λ m id, delete id m) (active_tasks w)
                     (tasks_to_remove (clock w - timedelta_hours hours)
                        (active_tasks w)))
                  (clock w - timedelta_hours hours) task_id
                  (map_to_list (output_dir d1)) (c1, f1, d1)) as Horphan.
    cbn [snd] in Horphan. rewrite Hl1 in Horphan.
    destruct (Horphan Hlocked) as [Hl2 Ho2].
    destruct (foldl (sweep_orphan _ _) _ _) as [[c2 f2] d2].
    cbn [snd] in Hl2, Ho2.
    pose proof (sweep_upload_keeps_dirs (clock w - timedelta_hours hours)
                  (map_to_list (upload_dir d2)) (f2, d2)) as Hupload.
    destruct (foldl (sweep_upload _) _ _) as [f3 d3].
    cbn [snd disk with_disk with_tasks] in *. congruence.
Qed.
End RemovalProperties.

Section RemovalExamples.
#[local] Existing Instance sample_runtime.

(** Task [t] was last accessed 25 hours ago and its directory cannot be
    removed; the sweep runs with the default threshold of 24 hours. It
    reports 0 tasks cleaned and 1022 bytes freed. *)
Lemma sweep_forgets_task_whose_directory_stays_witness :
  let w := finished_world {[ "t" ]} in
  let w' := (cleanup_old_tasks 24 w).2 in
  (cleanup_old_tasks 24 w).1 = Ok (0, 1022)
  ∧ active_tasks w !! "t" = Some finished_task
  ∧ dir_exists "t" (disk w) = true
  ∧ active_tasks w' !! "t" = None
  ∧ dir_exists "t" (disk w') = true.
Proof.
  cbv zeta.
  split; [vm_compute; reflexivity |]. split; [reflexivity |].
  split; [reflexivity |].
  destruct (sweep_forgets_task_whose_directory_stays (H := sample_runtime)
              24 (finished_world {[ "t" ]}) "t" finished_task
              {| dir_mtime := 1699910000000000;
                 dir_files :=
                   {[ "video_001.mp4" :=
                        {| st_size := 500; st_mtime := 1699910000000000;
                           namelist := None |};
                      "videos_t.zip" :=
                        {| st_size := 522; st_mtime := 1699910000000000;
                           namelist := Some ["video_001.mp4"] |} ]} |})
    as [Hrecord Hdir];
    [reflexivity | vm_compute; reflexivity | reflexivity
    | change ("t" ∈ ({[ "t" ]} : gset string));
      apply elem_of_singleton; reflexivity |].
  split; [exact Hrecord |].
  unfold dir_exists. rewrite Hdir. reflexivity.
Defined.
End RemovalExamples.

(** ** Archive download *)

Section ArchiveDownloadProperties.
Context `{PyRuntime}.

Lemma output_file_dir_exists task_id name d f :
  output_file task_id name d = Some f →
  is_Some (output_dir d !! task_id) ∧ dir_exists task_id d = true.
Proof.
  unfold output_file, dir_exists. intros Hfile.
  destruct (output_dir d !! task_id); [| discriminate].
  split; [eauto | apply bool_decide_eq_true; eauto].
Qed.

(** A completed task with an archive that is on the disk and not empty:
    the handler answers with the archive and schedules the cleanup. *)
Lemma download_archive_served task_id w t name f :
  active_tasks w !! task_id = Some t →
  status t = completed →
  archive t = Some name →
  name ≠ "" →
  output_file task_id name (disk w) = Some f →
  st_size f ≠ 0 →
  ∃ w1,
    download_archive task_id w
    = (Ok (FileResponse (output_path_str task_id name)
             ("unique_videos_" +:+ task_id +:+ ".zip") "application/zip",
           [task_id]), w1)
    ∧ disk w1 = disk w
    ∧ is_Some (active_tasks w1 !! task_id).
Proof.
  intros Hlook Hstatus Harchive Hname Hfile Hsize.
  destruct (output_file_dir_exists _ _ _ _ Hfile) as [_ Hdir].
  unfold download_archive, mbind, M_bind, get_task_status.
  rewrite Hlook. cbv beta iota. cbn [status archive set_last_accessed].
  rewrite Hstatus, Harchive.
  rewrite decide_False by (intros Hne; apply Hne; reflexivity).
  destruct name as [| a name']; [contradiction |].
  unfold get_task_files. cbn [active_tasks with_tasks disk clock].
  rewrite lookup_insert_eq. cbn [disk with_tasks]. rewrite Hdir.
  cbv beta iota. unfold get_world. cbn [disk with_tasks].
  rewrite Hfile. rewrite (proj2 (Z.eqb_neq _ _) Hsize).
  eexists. split; [reflexivity |]. cbn [disk with_tasks active_tasks].
  split; [reflexivity |]. rewrite lookup_insert_eq. eauto.
Qed.

(** C5, as amended. For a completed task whose archive is on the disk
    and not empty, the archive request is served. Then the cleanup runs:
    when the working directory can be removed, the directory and the
    record are both deleted and a following status query raises 404; when
    its removal raises, the error is logged, the directory and the record
    both stay, and a following status query still answers for the task. *)
Theorem archive_download_consumes_task
    (task_id : string) (w : World) (t : Task) (name : string) (f : File) :
  active_tasks w !! task_id = Some t →
  status t = completed →
  archive t = Some name →
  name ≠ "" →
  output_file task_id name (disk w) = Some f →
  st_size f ≠ 0 →
  ∃ w1,
    serve_download_archive task_id w
    = (Ok (FileResponse (output_path_str task_id name)
             ("unique_videos_" +:+ task_id +:+ ".zip") "application/zip"),
       w1)
    ∧ (task_id ∉ locked_dirs (disk w) →
       output_dir (disk w1) !! task_id = None
       ∧ active_tasks w1 !! task_id = None
       ∧ get_status task_id w1
         = (Raise (HTTPException 404 "Задача не найдена"), w1))
    ∧ (task_id ∈ locked_dirs (disk w) →
       output_dir (disk w1) !! task_id = output_dir (disk w) !! task_id
       ∧ is_Some (active_tasks w1 !! task_id)
       ∧ ∃ response w2, get_status task_id w1 = (Ok response, w2)).
Proof.
  intros Hlook Hstatus Harchive Hname Hfile Hsize.
  destruct (download_archive_served _ _ _ _ _ Hlook Hstatus Harchive Hname
              Hfile Hsize) as (w0 & Hserve & Hdisk & Hrecord).
  destruct (output_file_dir_exists _ _ _ _ Hfile) as [Hdir _].
  unfold serve_download_archive, mbind, M_bind. rewrite Hserve.
  cbn [foldr]. unfold mbind, M_bind, mret, M_ret.
  destruct (cleanup_task_after_download_cases task_id w0)
    as [(_ & Hlocked & Hrun) | (Hnot & w1 & Hrun & Hnodir & Hnorecord)];
    rewrite Hrun; eexists; (split; [reflexivity |]); rewrite Hdisk in *.
  - split; [intros Hfree; contradiction |]. intros _.
    split; [reflexivity |]. split; [exact Hrecord |].
    destruct Hrecord as [t0 Ht0].
    unfold get_status, mbind, M_bind, get_task_status. rewrite Ht0.
    eexists _, _. reflexivity.
  - split; [| intros Hlocked; tauto]. intros _.
    split; [exact Hnodir |]. split; [exact Hnorecord |].
    unfold get_status, mbind, M_bind, get_task_status. rewrite Hnorecord.
    reflexivity.
Qed.
End ArchiveDownloadProperties.

Section ArchiveDownloadExamples.
#[local] Existing Instance sample_runtime.

Lemma archive_download_consumes_task_witness :
  ∃ w1,
    serve_download_archive "t" (finished_world ∅)
    = (Ok (FileResponse "outputs/t/videos_t.zip" "unique_videos_t.zip"
             "application/zip"), w1)
    ∧ output_dir (disk w1) !! "t" = None
    ∧ active_tasks w1 !! "t" = None
    ∧ get_status "t" w1 = (Raise (HTTPException 404 "Задача не найдена"), w1).
Proof.
  destruct (archive_download_consumes_task (H := sample_runtime)
              "t" (finished_world ∅) finished_task "videos_t.zip"
              {| st_size := 522; st_mtime := 1699910000000000;
                 namelist := Some ["video_001.mp4"] |})
    as (w1 & Hserve & Hfree & _);
    [reflexivity | reflexivity | reflexivity | discriminate | reflexivity
    | discriminate |].
  exists w1. split; [exact Hserve |]. apply Hfree.
  apply not_elem_of_empty.
Defined.

(** C5, as stated, fails. Task [t] is completed and has its archive; its
    directory cannot be removed. The archive is served, the cleanup logs
    the error of [shutil.rmtree] and returns, and the status query that
    follows answers "completed" instead of raising 404; the directory is
    still there. *)
Lemma archive_download_keeps_locked_task :
  let w := finished_world {[ "t" ]} in
  let w1 := (serve_download_archive "t" w).2 in
  (serve_download_archive "t" w).1
  = Ok (FileResponse "outputs/t/videos_t.zip" "unique_videos_t.zip"
          "application/zip")
  ∧ (get_status "t" w1).1 = Ok (ProcessStatus "t" "completed" 1 1 None)
  ∧ dir_exists "t" (disk w1) = true
  ∧ is_Some (active_tasks w1 !! "t").
Proof.
  vm_compute. repeat split; try reflexivity. eexists. reflexivity.
Qed.
End ArchiveDownloadExamples.

(** ** ArchiveBuilder *)

Section ArchiveProperties.
Context `{PyRuntime}.

(** The names of the orchestrator's copies never collide with the name of
    the archive: they part at the sixth character. *)
Lemma output_filename_not_archive_name i output_format task_id :
  output_filename i output_format ≠ archive_name task_id.
Proof. unfold output_filename, archive_name. simpl. discriminate. Qed.

Lemma zip_entries_names (dir : Dir) (files : list string) :
  (zip_entries dir files).*1
  = filter (λ name, is_Some (dir_files dir !! name)) files.
Proof.
  unfold zip_entries.
  induction files as [| name files IH]; [reflexivity |].
  destruct (dir_files dir !! name) as [f |] eqn:Hf.
  - rewrite filter_cons_True by (rewrite Hf; eauto). rewrite <- IH.
    cbn [omap list_omap]. rewrite Hf. reflexivity.
  - rewrite filter_cons_False by (rewrite Hf; intros [? ?]; discriminate).
    rewrite <- IH. cbn [omap list_omap]. rewrite Hf. reflexivity.
Qed.

(** Whatever happens while it builds, [_create_archive] returns. *)
Lemma _create_archive_returns (others : AwaitPoint → M unit)
    task_id files w :
  ∃ archive_path w', _create_archive others task_id files w
                     = (Ok archive_path, w').
Proof.
  unfold _create_archive, try_except, mbind, M_bind, mret, M_ret, get_world.
  destruct (create_zip task_id files w) as [[[] | e] w1]; [| eauto].
  destruct (others during_archive w1) as [[[] | e] w2]; eauto.
Qed.

(** What [create_zip] writes when the task directory is there. *)
Lemma create_zip_writes task_id files w dir :
  output_dir (disk w) !! task_id = Some dir →
  ∃ w' zip,
    create_zip task_id files w = (Ok tt, w')
    ∧ output_file task_id (archive_name task_id) (disk w') = Some zip
    ∧ namelist zip
      = Some (filter (λ name, is_Some (dir_files dir !! name)
                              ∨ name = archive_name task_id) files).
Proof.
  intros Hdir. unfold create_zip. rewrite Hdir.
  eexists _, _. split; [reflexivity |].
  split; [unfold output_file; cbn; rewrite lookup_insert_eq; cbn;
          apply lookup_insert_eq |].
  cbn [namelist]. f_equal.
  rewrite zip_entries_names. apply list_filter_iff. intros name.
  cbn [dir_files]. rewrite lookup_insert_is_Some.
  destruct (decide (archive_name task_id = name)) as [Heq | Hne].
  - split; intros _; [right | left]; congruence.
  - split.
    + intros [Heq | [_ Hsome]]; [contradiction | left; exact Hsome].
    + intros [Hsome | Heq]; [right; split; assumption | congruence].
Qed.

(** When nothing else touches the disk while it is built, the archive
    that was written is the one [_create_archive] returns. *)
Lemma _create_archive_builds (others : AwaitPoint → M unit)
    task_id files w w' zip :
  create_zip task_id files w = (Ok tt, w') →
  output_file task_id (archive_name task_id) (disk w') = Some zip →
  (∀ w1, ∃ w2, others during_archive w1 = (Ok tt, w2)
               ∧ disk w2 = disk w1) →
  ∃ w2, _create_archive others task_id files w
        = (Ok (Some (archive_name task_id)), w2)
        ∧ disk w2 = disk w'.
Proof.
  intros Hrun Hzip Hothers.
  unfold _create_archive, try_except, mbind, M_bind, get_world, mret, M_ret.
  rewrite Hrun. destruct (Hothers w') as (w2 & Hawait & Hdisk).
  rewrite Hawait. unfold file_exists. rewrite Hdisk, Hzip.
  rewrite bool_decide_eq_true_2 by eauto. eauto.
Qed.

(** C6. When the task directory is there, the build succeeds whichever
    of the listed files are missing (and [_create_archive] returns the
    archive when nothing else touches the disk meanwhile), and the archive
    it writes holds exactly the listed names that exist in the directory
    at build time, in the order of the list: a name is a member if and
    only if it is listed and its file exists. At build time the archive
    file itself exists (it has just been opened for writing), so it counts
    as existing should it be listed; the names of the copies are never
    that name, and for them existing at build time is existing in the
    directory as the builder found it. *)
Theorem archive_holds_listed_files_that_exist
    (task_id : string) (files : list string) (w : World) (dir : Dir) :
  output_dir (disk w) !! task_id = Some dir →
  ∃ w' zip members,
    create_zip task_id files w = (Ok tt, w')
    ∧ output_file task_id (archive_name task_id) (disk w') = Some zip
    ∧ namelist zip = Some members
    ∧ members
      = filter (λ name, is_Some (dir_files dir !! name)
                        ∨ name = archive_name task_id) files
    ∧ (∀ name, name ∈ members
               ↔ name ∈ files
                 ∧ (is_Some (dir_files dir !! name)
                    ∨ name = archive_name task_id))
    ∧ (∀ i output_format,
         output_filename i output_format ∈ members
         ↔ output_filename i output_format ∈ files
           ∧ is_Some (dir_files dir !! output_filename i output_format))
    ∧ (∀ others : AwaitPoint → M unit,
         (∀ w1, ∃ w2, others during_archive w1 = (Ok tt, w2)
                      ∧ disk w2 = disk w1) →
         ∃ w2, _create_archive others task_id files w
               = (Ok (Some (archive_name task_id)), w2)
               ∧ disk w2 = disk w').
Proof.
  intros Hdir.
  destruct (create_zip_writes task_id files w dir Hdir)
    as (w' & zip & Hrun & Hzip & Hlist).
  exists w', zip. eexists. split; [exact Hrun |]. split; [exact Hzip |].
  split; [exact Hlist |]. split; [reflexivity |]. split; [| split].
  - intros name. rewrite list_elem_of_filter. tauto.
  - intros i output_format. rewrite list_elem_of_filter.
    pose proof (output_filename_not_archive_name i output_format task_id).
    tauto.
  - intros others Hothers.
    exact (_create_archive_builds others _ _ _ _ _ Hrun Hzip Hothers).
Qed.
End ArchiveProperties.

Section ArchiveExamples.
#[local] Existing Instance sample_runtime.

(** The directory of task [t] holds [video_001.mp4]; [video_002.mp4] is
    listed but gone. The archive holds the first alone. *)
Lemma archive_holds_listed_files_that_exist_witness :
  ∃ w' zip,
    create_zip "t" ["video_001.mp4"; "video_002.mp4"] (finished_world ∅)
    = (Ok tt, w')
    ∧ output_file "t" "videos_t.zip" (disk w') = Some zip
    ∧ namelist zip = Some ["video_001.mp4"].
Proof.
  destruct (archive_holds_listed_files_that_exist (H := sample_runtime)
              "t" ["video_001.mp4"; "video_002.mp4"] (finished_world ∅)
              {| dir_mtime := 1699910000000000;
                 dir_files :=
                   {[ "video_001.mp4" :=
                        {| st_size := 500; st_mtime := 1699910000000000;
                           namelist := None |};
                      "videos_t.zip" :=
                        {| st_size := 522; st_mtime := 1699910000000000;
                           namelist := Some ["video_001.mp4"] |} ]} |})
    as (w' & zip & members & Hrun & Hfile & Hlist & Hmembers & _);
    [reflexivity |].
  exists w', zip. split; [exact Hrun |]. split; [exact Hfile |].
  rewrite Hlist, Hmembers. reflexivity.
Defined.
End ArchiveExamples.

(** ** Orchestrator *)

Lemma StronglySorted_seqZ (m n : Z) : StronglySorted Z.lt (seqZ m n).
Proof.
  destruct (decide (n ≤ 0)) as [Hn | Hn];
    [rewrite seqZ_nil by exact Hn; constructor |].
  rewrite <- (Z2Nat.id n) by lia. generalize (Z.to_nat n) as k. clear Hn.
  induction k as [| k IH]; [constructor |].
  rewrite seqZ_S. apply StronglySorted_app_2; [| exact IH | repeat constructor].
  intros x1 x2 Hx1 Hx2. apply elem_of_seqZ in Hx1.
  apply list_elem_of_singleton in Hx2. lia.
Qed.

Lemma StronglySorted_sublist {A} (R : A → A → Prop) (l1 l2 : list A) :
  l1 `sublist_of` l2 → StronglySorted R l2 → StronglySorted R l1.
Proof.
  induction 1 as [| x l1 l2 Hsub IH | x l1 l2 Hsub IH]; intros Hsorted.
  - constructor.
  - apply StronglySorted_cons in Hsorted as [Hall Hsorted].
    apply StronglySorted_cons. split; [| exact (IH Hsorted)].
    apply Forall_forall. intros y Hy.
    rewrite Forall_forall in Hall. apply Hall.
    exact (elem_of_sublist _ _ _ Hy Hsub).
  - apply StronglySorted_cons in Hsorted as [_ Hsorted]. exact (IH Hsorted).
Qed.

Section LoopProperties.
Context `{PyRuntime}.
Variable ffmpeg : list string → Disk → bool * Disk.
Variable others : AwaitPoint → M unit.
Variables (task_id input_file : string) (copies_count : Z)
          (output_format : string).

Abbreviation loop := (copy_loop ffmpeg others task_id input_file copies_count
                    output_format).
Abbreviation succeeds := (attempt_succeeds ffmpeg others task_id input_file
                        copies_count output_format).
Abbreviation name_of i := (output_filename i output_format).
Abbreviation body := (copy_loop_body ffmpeg others task_id input_file
                        copies_count output_format).

(** The encoder wrapper always returns, and leaves the registry alone. *)
Lemma create_unique_copy_returns filename i w :
  ∃ success w1,
    create_unique_copy ffmpeg input_file task_id filename i copies_count w
    = (Ok success, w1)
    ∧ active_tasks w1 = active_tasks w.
Proof.
  unfold create_unique_copy.
  destruct (_generate_unique_params _ _ _ _) as [params g1].
  destruct (_build_ffmpeg_command _ _ _ _) as [command g2].
  destruct (ffmpeg command (disk w)) as [[|] d]; eexists _, _;
    split; reflexivity.
Qed.

Lemma task_update_registered f w t :
  active_tasks w !! task_id = Some t →
  task_update task_id f w
  = (Ok tt, with_tasks (<[task_id := f t]> (active_tasks w)) w).
Proof. intros Hlook. unfold task_update. by rewrite Hlook. Qed.

(** One pass through the body of the loop, the run undisturbed: the
    attempt is counted, and its file name is appended exactly when the
    attempt succeeded. *)
Lemma copy_loop_body_counts i created w t :
  undisturbed others task_id →
  active_tasks w !! task_id = Some t →
  ∃ w' t',
    body i created w
    = (Ok (if succeeds i w then created ++ [name_of i] else created), w')
    ∧ active_tasks w' !! task_id = Some t'
    ∧ progress t' = i
    ∧ files t' = (if succeeds i w then created ++ [name_of i] else created).
Proof.
  intros Hquiet Hlook. unfold attempt_succeeds, copy_loop_body.
  unfold mbind, M_bind, get_world, now.
  destruct (create_unique_copy_returns (name_of i) i w)
    as (success & w1 & Hcopy & Htasks1).
  rewrite Hcopy. rewrite <- Htasks1 in Hlook.
  destruct (Hquiet (during_encode i) w1) as (w2 & Hencode & Hkeep2).
  rewrite Hencode. destruct (Hkeep2 _ Hlook) as (t2 & Hlook2 & _ & _).
  set (created' := if success && file_exists task_id (name_of i) (disk w2)
                   then created ++ [name_of i] else created).
  assert (Hcreated : (if match success with
                         | true => file_exists task_id (name_of i) (disk w2)
                         | false => false
                         end
                      then created ++ [name_of i] else created) = created')
    by (subst created'; destruct success; reflexivity).
  rewrite Hcreated.
  rewrite (task_update_registered _ _ _ Hlook2).
  erewrite task_update_registered
    by (cbn [active_tasks with_tasks]; apply lookup_insert_eq).
  cbn [clock with_tasks].
  erewrite task_update_registered
    by (cbn [active_tasks with_tasks]; apply lookup_insert_eq).
  match goal with
  | |- context [others (during_sleep i) ?w5] =>
      destruct (Hquiet (during_sleep i) w5) as (w6 & Hsleep & Hkeep6)
  end.
  rewrite Hsleep. edestruct Hkeep6 as (t6 & Hlook6 & Hprogress & Hfiles);
    [cbn [active_tasks with_tasks]; apply lookup_insert_eq |].
  exists w6, t6. split; [reflexivity |]. split; [exact Hlook6 |].
  split; [exact Hprogress | exact Hfiles].
Qed.

(** A run over [l1 ++ l2] is the run over [l1] continued over [l2]. *)
Lemma copy_loop_app l1 l2 created w :
  loop (l1 ++ l2) created w
  = match loop l1 created w with
    | (Ok created1, w1) => loop l2 created1 w1
    | (Raise e, w1) => (Raise e, w1)
    end.
Proof.
  revert created w. induction l1 as [| i l1 IH]; intros created w;
    [reflexivity |].
  cbn [copy_loop app]. unfold mbind, M_bind.
  destruct (body i created w) as [[created1 | e] w1]; [apply IH | reflexivity].
Qed.

(** The loop over any list of indices, the run undisturbed: it returns,
    and what it returns is what it was given followed by the names of a
    sublist of the indices. *)
Lemma copy_loop_returns indices :
  undisturbed others task_id →
  ∀ created w t,
    active_tasks w !! task_id = Some t →
    ∃ created' w' t' done,
      loop indices created w = (Ok created', w')
      ∧ active_tasks w' !! task_id = Some t'
      ∧ done `sublist_of` indices
      ∧ created' = created ++ ((λ i, name_of i) <$> done)
      ∧ (indices ≠ [] →
         Some (progress t') = last indices ∧ files t' = created').
Proof.
  intros Hquiet. induction indices as [| i rest IH]; intros created w t Hlook.
  - exists created, w, t, []. cbn. rewrite app_nil_r.
    split; [reflexivity |]. split; [exact Hlook |].
    split; [constructor |]. split; [reflexivity | congruence].
  - destruct (copy_loop_body_counts i created w t Hquiet Hlook)
      as (w1 & t1 & Hstep & Hlook1 & Hprogress1 & Hfiles1).
    destruct (IH (if succeeds i w then created ++ [name_of i] else created)
                w1 t1 Hlook1)
      as (created' & w' & t' & done & Hrun & Hlook' & Hsub & Hnames & Hlast).
    cbn [copy_loop]. unfold mbind at 1, M_bind at 1. rewrite Hstep, Hrun.
    exists created', w', t'.
    exists (if succeeds i w then i :: done else done).
    split; [reflexivity |]. split; [exact Hlook' |]. split; [| split].
    + destruct (succeeds i w); [by apply sublist_skip | by apply sublist_cons].
    + rewrite Hnames. destruct (succeeds i w); [| reflexivity].
      cbn [fmap list_fmap]. by rewrite <- app_assoc.
    + intros _. destruct rest as [| j rest'].
      * cbn in Hrun. injection Hrun as <- <-.
        assert (t' = t1) by congruence. subst t'.
        split; [cbn; congruence | exact Hfiles1].
      * rewrite last_cons_cons. apply Hlast. discriminate.
Qed.
Lemma seqZ_singleton (m : Z) : seqZ m 1 = [m].
Proof. rewrite seqZ_cons by lia. by rewrite seqZ_nil by lia. Qed.

Lemma seqZ_snoc (m n : Z) : 0 ≤ n → seqZ m (n + 1) = seqZ m n ++ [m + n].
Proof. intros Hn. rewrite seqZ_app by lia. by rewrite seqZ_singleton. Qed.

Lemma last_seqZ (m n : Z) : 0 < n → last (seqZ m n) = Some (m + n - 1).
Proof.
  intros Hn. replace n with ((n - 1) + 1) by lia.
  rewrite seqZ_snoc by lia. rewrite last_snoc. f_equal. lia.
Qed.

(** Attempt [i] of a run of [copies_count] copies, the run undisturbed:
    the state before it is the one the first [i - 1] passes leave, the
    state after it the one the first [i] passes leave, and the run goes on
    from there. *)
Lemma copy_loop_attempt i w t :
  undisturbed others task_id →
  active_tasks w !! task_id = Some t →
  1 ≤ i ≤ copies_count →
  ∃ created_before w_before created_after w_after t_after,
    loop (seqZ 1 (i - 1)) [] w = (Ok created_before, w_before)
    ∧ loop (seqZ 1 i) [] w = (Ok created_after, w_after)
    ∧ loop (seqZ 1 copies_count) [] w
      = loop (seqZ (i + 1) (copies_count - i)) created_after w_after
    ∧ created_after
      = (if succeeds i w_before then created_before ++ [name_of i]
         else created_before)
    ∧ active_tasks w_after !! task_id = Some t_after
    ∧ progress t_after = i
    ∧ files t_after = created_after.
Proof.
  intros Hquiet Hlook Hi.
  destruct (copy_loop_returns (seqZ 1 (i - 1)) Hquiet [] w t Hlook)
    as (created0 & w0 & t0 & done0 & Hrun0 & Hlook0 & _).
  destruct (copy_loop_body_counts i created0 w0 t0 Hquiet Hlook0)
    as (w1 & t1 & Hbody & Hlook1 & Hprogress & Hfiles).
  assert (Hrun1 : loop (seqZ 1 i) [] w
                  = (Ok (if succeeds i w0 then created0 ++ [name_of i]
                         else created0), w1)).
  { assert (Hsplit : seqZ 1 i = seqZ 1 (i - 1) ++ [i]).
    { replace [i] with [1 + (i - 1)] by (f_equal; lia).
      rewrite <- seqZ_snoc by lia. f_equal. lia. }
    rewrite Hsplit, copy_loop_app, Hrun0. cbn [copy_loop].
    unfold mbind, M_bind. rewrite Hbody. reflexivity. }
  eexists _, _, _, _, _. split; [exact Hrun0 |]. split; [exact Hrun1 |].
  split; [| split; [reflexivity | split; [exact Hlook1 | split; assumption]]].
  assert (Hsplit : seqZ 1 copies_count
                   = seqZ 1 i ++ seqZ (i + 1) (copies_count - i)).
  { rewrite <- (Z.add_comm 1 i), <- seqZ_app by lia. f_equal. lia. }
  rewrite Hsplit, copy_loop_app, Hrun1. reflexivity.
Qed.

(** The whole loop of a run of [copies_count] copies, undisturbed. *)
Lemma copy_loop_whole w t :
  undisturbed others task_id →
  active_tasks w !! task_id = Some t →
  1 ≤ copies_count →
  ∃ created w' t' done,
    loop (seqZ 1 copies_count) [] w = (Ok created, w')
    ∧ active_tasks w' !! task_id = Some t'
    ∧ progress t' = copies_count
    ∧ files t' = created
    ∧ created = (λ i, name_of i) <$> done
    ∧ done `sublist_of` seqZ 1 copies_count
    ∧ StronglySorted Z.lt done
    ∧ Z.of_nat (length created) ≤ copies_count.
Proof.
  intros Hquiet Hlook Hcount.
  destruct (copy_loop_returns (seqZ 1 copies_count) Hquiet [] w t Hlook)
    as (created & w' & t' & done & Hrun & Hlook' & Hsub & Hnames & Hlast).
  destruct Hlast as [Hprogress Hfiles].
  { rewrite seqZ_cons by lia. discriminate. }
  rewrite last_seqZ in Hprogress by lia.
  exists created, w', t', done. cbn [app] in Hnames.
  split; [exact Hrun |]. split; [exact Hlook' |].
  split; [injection Hprogress as ->; lia |]. split; [exact Hfiles |].
  split; [exact Hnames |]. split; [exact Hsub |].
  split; [exact (StronglySorted_sublist _ _ _ Hsub (StronglySorted_seqZ _ _)) |].
  rewrite Hnames, length_fmap.
  apply sublist_length in Hsub. rewrite length_seqZ in Hsub. lia.
Qed.
End LoopProperties.

(** C2. In a run of [total >= 1] copies that the other coroutines leave
    alone, the loop makes the attempts 1, 2, ..., [total] in this order.
    For every [i] of them: the loop reaches attempt [i] and gets past it;
    right after it [progress] is [i] whether the encode succeeded or not,
    and [files] is the list of before with the file name of copy [i]
    appended if the encode succeeded and unchanged if it did not; the rest
    of the run continues with [i + 1]. At the end of the loop [progress]
    is [total], and [files] holds the names of a strictly increasing
    sublist of 1..[total], so at most [total] names. In the scenario of
    three copies where only the encode of copy 2 fails, the job ends with
    status completed, progress 3 and the files of copies 1 and 3, which
    are also what its archive holds. *)
Theorem orchestration_loop_counts_every_attempt :
  (∀ (H : PyRuntime) (ffmpeg : list string → Disk → bool * Disk)
     (others : AwaitPoint → M unit) (task_id input_file : string)
     (total : Z) (output_format : string) (w : World) (t : Task),
     undisturbed others task_id →
     active_tasks w !! task_id = Some t →
     1 ≤ total →
     (∀ i, 1 ≤ i ≤ total →
        ∃ files_before w_before files_after w_after t_after,
          copy_loop ffmpeg others task_id input_file total output_format
            (seqZ 1 (i - 1)) [] w = (Ok files_before, w_before)
          ∧ copy_loop ffmpeg others task_id input_file total output_format
              (seqZ 1 i) [] w = (Ok files_after, w_after)
          ∧ copy_loop ffmpeg others task_id input_file total output_format
              (seqZ 1 total) [] w
            = copy_loop ffmpeg others task_id input_file total output_format
                (seqZ (i + 1) (total - i)) files_after w_after
          ∧ files_after
            = (if attempt_succeeds ffmpeg others task_id input_file total
                    output_format i w_before
               then files_before ++ [output_filename i output_format]
               else files_before)
          ∧ active_tasks w_after !! task_id = Some t_after
          ∧ progress t_after = i
          ∧ files t_after = files_after)
     ∧ (∃ created w' t' done,
          copy_loop ffmpeg others task_id input_file total output_format
            (seqZ 1 total) [] w = (Ok created, w')
          ∧ active_tasks w' !! task_id = Some t'
          ∧ progress t' = total
          ∧ files t' = created
          ∧ created = (λ i, output_filename i output_format) <$> done
          ∧ done `sublist_of` seqZ 1 total
          ∧ StronglySorted Z.lt done
          ∧ Z.of_nat (length created) ≤ total))
  ∧ (attempt_succeeds (H := sample_runtime) scenario_ffmpeg quiet
       "t" "input.mp4" 3 "mp4" 1 scenario_submitted = true
     ∧ attempt_succeeds (H := sample_runtime) scenario_ffmpeg quiet
         "t" "input.mp4" 3 "mp4" 2 (scenario_after 1) = false
     ∧ attempt_succeeds (H := sample_runtime) scenario_ffmpeg quiet
         "t" "input.mp4" 3 "mp4" 3 (scenario_after 2) = true
     ∧ scenario_job.1 = Ok tt
     ∧ (status <$> active_tasks scenario_job.2 !! "t") = Some completed
     ∧ (progress <$> active_tasks scenario_job.2 !! "t") = Some 3
     ∧ (files <$> active_tasks scenario_job.2 !! "t")
       = Some ["video_001.mp4"; "video_003.mp4"]
     ∧ (output_file "t" "videos_t.zip" (disk scenario_job.2) ≫= namelist)
       = Some ["video_001.mp4"; "video_003.mp4"]).
Proof.
  split.
  - intros H ffmpeg others task_id input_file total output_format w t
      Hquiet Hlook Htotal. split.
    + intros i Hi.
      exact (copy_loop_attempt ffmpeg others task_id input_file total
               output_format i w t Hquiet Hlook Hi).
    + exact (copy_loop_whole ffmpeg others task_id input_file total
               output_format w t Hquiet Hlook Htotal).
  - vm_compute. repeat split; reflexivity.
Qed.

Section LoopExamples.
#[local] Existing Instance sample_runtime.

Lemma quiet_undisturbed task_id : undisturbed quiet task_id.
Proof. intros p w. exists w. split; [reflexivity |]. eauto. Qed.

Lemma orchestration_loop_counts_every_attempt_witness :
  undisturbed quiet "t"
  ∧ is_Some (active_tasks scenario_submitted !! "t")
  ∧ 1 ≤ 3
  ∧ ∃ created w' t',
      copy_loop scenario_ffmpeg quiet "t" "input.mp4" 3 "mp4" (seqZ 1 3) []
        scenario_submitted = (Ok created, w')
      ∧ active_tasks w' !! "t" = Some t'
      ∧ progress t' = 3
      ∧ files t' = created.
Proof.
  split; [apply quiet_undisturbed |]. split; [eexists; reflexivity |].
  split; [lia |].
  destruct orchestration_loop_counts_every_attempt as [Hloop _].
  destruct (Hloop sample_runtime scenario_ffmpeg quiet "t" "input.mp4" 3
              "mp4" scenario_submitted
              {| status := processing; progress := 0; total := 3;
                 files := []; created_at := 1700000000000000;
                 last_accessed := 1700000000000000;
                 task_dir := "outputs/t"; input_file := "uploads/input.mp4";
                 archive := None; error := None; completed_at := None |}
              (quiet_undisturbed "t") eq_refl ltac:(lia))
    as [_ (created & w' & t' & done & Hrun & Hlook & Hprogress & Hfiles & _)].
  exists created, w', t'. repeat split; assumption.
Defined.
End LoopExamples.

Section TerminalStateProperties.
Context `{PyRuntime}.
Variable ffmpeg : list string → Disk → bool * Disk.
Variable others : AwaitPoint → M unit.
Variables (task_id input_file : string) (copies_count : Z)
          (output_format : string).

Abbreviation the_loop :=
  (copy_loop ffmpeg others task_id input_file copies_count output_format
     (seqZ 1 copies_count) []).
Abbreviation the_run :=
  (_process_task ffmpeg others task_id input_file copies_count output_format).

Lemma cleanup_file_returns name w :
  ∃ w', cleanup_file name w = (Ok tt, w')
        ∧ active_tasks w' = active_tasks w.
Proof.
  unfold cleanup_file. destruct (upload_dir (disk w) !! name); [| eauto].
  destruct (unlink name (disk w)); eauto.
Qed.

Lemma task_update_unregistered f w :
  active_tasks w !! task_id = None →
  task_update task_id f w = (Raise (KeyError task_id), w).
Proof. intros Hnone. unfold task_update. by rewrite Hnone. Qed.

(** The steps after the record was given its last fields: the status
    update and the removal of the input. *)
Lemma complete_registered w t :
  active_tasks w !! task_id = Some t →
  ∃ w2,
    (t0 ← now; task_update task_id (update_completed t0);;
     cleanup_file input_file) w = (Ok tt, w2)
    ∧ active_tasks w2 !! task_id = Some (update_completed (clock w) t).
Proof.
  intros Hlook. unfold mbind, M_bind, now.
  rewrite (task_update_registered task_id _ _ _ Hlook).
  match goal with
  | |- context [cleanup_file input_file ?w1] =>
      destruct (cleanup_file_returns input_file w1) as (w2 & Hclean & Htasks)
  end.
  rewrite Hclean. exists w2. split; [reflexivity |].
  rewrite Htasks. cbn [active_tasks with_tasks]. apply lookup_insert_eq.
Qed.

Lemma complete_unregistered w :
  active_tasks w !! task_id = None →
  (t0 ← now; task_update task_id (update_completed t0);;
   cleanup_file input_file) w = (Raise (KeyError task_id), w).
Proof.
  intros Hnone. unfold mbind, M_bind, now.
  by rewrite (task_update_unregistered _ _ Hnone).
Qed.

(** No file was created: no archive is attempted. *)
Lemma finish_task_no_files w1 t1 :
  active_tasks w1 !! task_id = Some t1 →
  ∃ w2,
    finish_task others task_id input_file [] w1 = (Ok tt, w2)
    ∧ active_tasks w2 !! task_id = Some (update_completed (clock w1) t1).
Proof.
  intros Hlook. unfold finish_task.
  unfold mbind at 1, M_bind at 1. unfold mret at 1, M_ret at 1.
  exact (complete_registered w1 t1 Hlook).
Qed.

(** Some files were created: the archive is attempted, and recorded when
    it was built. *)
Lemma finish_task_with_files created w1 archive_path wa ta :
  created ≠ [] →
  _create_archive others task_id created w1 = (Ok archive_path, wa) →
  active_tasks wa !! task_id = Some ta →
  ∃ w2,
    finish_task others task_id input_file created w1 = (Ok tt, w2)
    ∧ active_tasks w2 !! task_id
      = Some (update_completed (clock wa)
                (match archive_path with
                 | Some name =>
                     if file_exists task_id name (disk wa)
                     then set_archive name ta else ta
                 | None => ta
                 end)).
Proof.
  intros Hfiles Harchive Hlook. unfold finish_task.
  destruct created as [| name0 created]; [contradiction |].
  unfold mbind at 1, M_bind at 1. unfold mbind at 1, M_bind at 1.
  rewrite Harchive. unfold mbind at 1, M_bind at 1, get_world.
  destruct archive_path as [name |].
  - destruct (file_exists task_id name (disk wa)).
    + rewrite (task_update_registered task_id _ _ _ Hlook).
      edestruct complete_registered as (w2 & Hrun & Hlook2);
        [| exists w2; split; [exact Hrun | exact Hlook2]].
      cbn [active_tasks with_tasks]. apply lookup_insert_eq.
    + unfold mret, M_ret. exact (complete_registered wa ta Hlook).
  - unfold mret, M_ret. exact (complete_registered wa ta Hlook).
Qed.

(** However the statements after the loop go, they end with the record
    completed, or with an exception and no record. *)
Lemma finish_task_cases created w1 :
  (∃ w2 t2, finish_task others task_id input_file created w1 = (Ok tt, w2)
            ∧ active_tasks w2 !! task_id = Some t2
            ∧ status t2 = completed)
  ∨ (∃ e w2, finish_task others task_id input_file created w1 = (Raise e, w2)
             ∧ active_tasks w2 !! task_id = None).
Proof.
  destruct created as [| name0 created].
  - destruct (active_tasks w1 !! task_id) as [t1 |] eqn:Hlook.
    + left. destruct (finish_task_no_files w1 t1 Hlook) as (w2 & Hrun & Hlook2).
      eauto.
    + right. unfold finish_task.
      unfold mbind at 1, M_bind at 1. unfold mret at 1, M_ret at 1.
      rewrite (complete_unregistered w1 Hlook). eauto.
  - destruct (_create_archive_returns others task_id (name0 :: created) w1)
      as (archive_path & wa & Harchive).
    destruct (active_tasks wa !! task_id) as [ta |] eqn:Hlook.
    + left.
      destruct (finish_task_with_files (name0 :: created) w1 archive_path
                  wa ta ltac:(discriminate) Harchive Hlook)
        as (w2 & Hrun & Hlook2).
      eauto.
    + right. unfold finish_task.
      unfold mbind at 1, M_bind at 1. unfold mbind at 1, M_bind at 1.
      rewrite Harchive. unfold mbind at 1, M_bind at 1, get_world.
      assert (Hskip : (mret tt : M unit) wa = (Ok tt, wa)) by reflexivity.
      destruct archive_path as [name |];
        [destruct (file_exists task_id name (disk wa)) |];
        rewrite ?(task_update_unregistered _ _ Hlook), ?Hskip,
          ?(complete_unregistered wa Hlook); eauto.
Qed.

(** The handler: with the record registered it marks it failed; without
    it, the handler raises in its turn and changes nothing. *)
Lemma on_exception_registered e w t :
  active_tasks w !! task_id = Some t →
  ∃ w2,
    on_exception task_id input_file e w = (Ok tt, w2)
    ∧ active_tasks w2 !! task_id
      = Some (update_failed (exn_str e) (clock w) t).
Proof.
  intros Hlook. unfold on_exception, mbind, M_bind, now.
  rewrite (task_update_registered task_id _ _ _ Hlook).
  match goal with
  | |- context [cleanup_file input_file ?w1] =>
      destruct (cleanup_file_returns input_file w1) as (w2 & Hclean & Htasks)
  end.
  rewrite Hclean. exists w2. split; [reflexivity |].
  rewrite Htasks. cbn [active_tasks with_tasks]. apply lookup_insert_eq.
Qed.

Lemma on_exception_unregistered e w :
  active_tasks w !! task_id = None →
  on_exception task_id input_file e w = (Raise (KeyError task_id), w).
Proof.
  intros Hnone. unfold on_exception, mbind, M_bind, now.
  by rewrite (task_update_unregistered _ _ Hnone).
Qed.
(** The run, by how its loop and the statements after it end. *)
Lemma _process_task_cases w :
  the_run w
  = match the_loop w with
    | (Ok created, w1) =>
        match finish_task others task_id input_file created w1 with
        | (Ok u, w2) => (Ok u, w2)
        | (Raise e, w2) => on_exception task_id input_file e w2
        end
    | (Raise e, w1) => on_exception task_id input_file e w1
    end.
Proof.
  unfold _process_task, try_except. unfold mbind at 1, M_bind at 1.
  destruct (the_loop w) as [[created | e] w1]; reflexivity.
Qed.

(** C3. When the loop has returned, the run ends with the record
    completed: also when no file was created, and also when files were
    created and the archive could not be built, in which case the run
    records no archive (the record keeps the ['archive'] entry it had, and
    its ['error'] entry). A run whose loop returned never leaves a record
    with another status than completed. When the loop raises and the
    record is registered, the run ends with the record failed and
    [str(e)] in its ['error'] entry; when the loop raises and the record
    is gone, the handler raises [KeyError] in its turn and nothing is
    recorded. *)
Theorem task_completes_unless_loop_raises (w : World) :
  (∀ w1 t1,
     the_loop w = (Ok [], w1) →
     active_tasks w1 !! task_id = Some t1 →
     ∃ w2 t2, the_run w = (Ok tt, w2)
              ∧ active_tasks w2 !! task_id = Some t2
              ∧ status t2 = completed
              ∧ files t2 = files t1
              ∧ archive t2 = archive t1
              ∧ error t2 = error t1)
  ∧ (∀ created w1 wa ta,
       the_loop w = (Ok created, w1) →
       created ≠ [] →
       _create_archive others task_id created w1 = (Ok None, wa) →
       active_tasks wa !! task_id = Some ta →
       ∃ w2 t2, the_run w = (Ok tt, w2)
                ∧ active_tasks w2 !! task_id = Some t2
                ∧ status t2 = completed
                ∧ archive t2 = archive ta
                ∧ error t2 = error ta)
  ∧ (∀ created w1,
       the_loop w = (Ok created, w1) →
       ∀ t2, active_tasks (the_run w).2 !! task_id = Some t2 →
             status t2 = completed)
  ∧ (∀ e w1 t1,
       the_loop w = (Raise e, w1) →
       active_tasks w1 !! task_id = Some t1 →
       ∃ w2 t2, the_run w = (Ok tt, w2)
                ∧ active_tasks w2 !! task_id = Some t2
                ∧ status t2 = failed
                ∧ error t2 = Some (exn_str e))
  ∧ (∀ e w1,
       the_loop w = (Raise e, w1) →
       active_tasks w1 !! task_id = None →
       the_run w = (Raise (KeyError task_id), w1)).
Proof.
  rewrite _process_task_cases.
  split; [| split; [| split; [| split]]].
  - intros w1 t1 Hloop Hlook. rewrite Hloop.
    destruct (finish_task_no_files w1 t1 Hlook) as (w2 & Hrun & Hlook2).
    rewrite Hrun. eexists _, _. split; [reflexivity |].
    split; [exact Hlook2 |]. repeat split; reflexivity.
  - intros created w1 wa ta Hloop Hfiles Harchive Hlook. rewrite Hloop.
    destruct (finish_task_with_files created w1 None wa ta Hfiles Harchive
                Hlook) as (w2 & Hrun & Hlook2).
    rewrite Hrun. eexists _, _. split; [reflexivity |].
    split; [exact Hlook2 |]. repeat split; reflexivity.
  - intros created w1 Hloop t2. rewrite Hloop.
    destruct (finish_task_cases created w1)
      as [(w2 & t & Hrun & Hlook & Hstatus) | (e & w2 & Hrun & Hnone)];
      rewrite Hrun.
    + cbn [snd]. intros Hlook2. congruence.
    + rewrite (on_exception_unregistered e w2 Hnone). cbn [snd]. congruence.
  - intros e w1 t1 Hloop Hlook. rewrite Hloop.
    destruct (on_exception_registered e w1 t1 Hlook) as (w2 & Hrun & Hlook2).
    rewrite Hrun. eexists _, _. split; [reflexivity |].
    split; [exact Hlook2 |]. split; reflexivity.
  - intros e w1 Hloop Hnone. rewrite Hloop.
    exact (on_exception_unregistered e w1 Hnone).
Qed.
End TerminalStateProperties.

Section TerminalStateExamples.
#[local] Existing Instance sample_runtime.

(** A job of three copies: when the [await] of the second encode raises,
    the task ends failed with the message of the exception; when every
    encode fails, it ends completed with no file and no archive. *)
Lemma task_completes_unless_loop_raises_witness :
  (∃ w2 t2,
     _process_task scenario_ffmpeg (raising_at 2) "t" "input.mp4" 3 "mp4"
       scenario_submitted = (Ok tt, w2)
     ∧ active_tasks w2 !! "t" = Some t2
     ∧ status t2 = failed
     ∧ error t2 = Some "worker lost")
  ∧ (∃ w2 t2,
       _process_task
         (sample_ffmpeg ["video_001.mp4"; "video_002.mp4"; "video_003.mp4"]
            500)
         quiet "t" "input.mp4" 3 "mp4" scenario_submitted = (Ok tt, w2)
       ∧ active_tasks w2 !! "t" = Some t2
       ∧ status t2 = completed
       ∧ files t2 = []
       ∧ archive t2 = None).
Proof.
  split.
  - destruct (task_completes_unless_loop_raises (H := sample_runtime)
                scenario_ffmpeg (raising_at 2) "t" "input.mp4" 3 "mp4"
                scenario_submitted) as (_ & _ & _ & Hraised & _).
    assert (Hresult :
      (copy_loop scenario_ffmpeg (raising_at 2) "t" "input.mp4" 3 "mp4"
         (seqZ 1 3) [] scenario_submitted).1
      = Raise (RuntimeError "worker lost")) by (vm_compute; reflexivity).
    assert (Hrecord :
      is_Some (active_tasks
                 (copy_loop scenario_ffmpeg (raising_at 2) "t" "input.mp4" 3
                    "mp4" (seqZ 1 3) [] scenario_submitted).2 !! "t"))
      by (vm_compute; eexists; reflexivity).
    destruct (copy_loop scenario_ffmpeg (raising_at 2) "t" "input.mp4" 3
                "mp4" (seqZ 1 3) [] scenario_submitted) as [r w1] eqn:Hloop.
    cbn [fst snd] in Hresult, Hrecord. subst r.
    destruct Hrecord as [t1 Hlook1].
    destruct (Hraised _ w1 t1 eq_refl Hlook1)
      as (w2 & t2 & Hrun & Hlook & Hstatus & Herror).
    exists w2, t2. repeat split; assumption.
  - destruct (task_completes_unless_loop_raises (H := sample_runtime)
                (sample_ffmpeg
                   ["video_001.mp4"; "video_002.mp4"; "video_003.mp4"] 500)
                quiet "t" "input.mp4" 3 "mp4" scenario_submitted)
      as (Hempty & _).
    assert (Hresult :
      (copy_loop
         (sample_ffmpeg ["video_001.mp4"; "video_002.mp4"; "video_003.mp4"]
            500)
         quiet "t" "input.mp4" 3 "mp4" (seqZ 1 3) [] scenario_submitted).1
      = Ok []) by (vm_compute; reflexivity).
    assert (Hrecord :
      ∃ t1,
        active_tasks
          (copy_loop
             (sample_ffmpeg
                ["video_001.mp4"; "video_002.mp4"; "video_003.mp4"] 500)
             quiet "t" "input.mp4" 3 "mp4" (seqZ 1 3) []
             scenario_submitted).2 !! "t" = Some t1
        ∧ files t1 = [] ∧ archive t1 = None)
      by (vm_compute; eexists; repeat split; reflexivity).
    destruct (copy_loop
                (sample_ffmpeg
                   ["video_001.mp4"; "video_002.mp4"; "video_003.mp4"] 500)
                quiet "t" "input.mp4" 3 "mp4" (seqZ 1 3) []
                scenario_submitted) as [r w1] eqn:Hloop.
    cbn [fst snd] in Hresult, Hrecord. subst r.
    destruct Hrecord as (t1 & Hlook1 & Hfiles1 & Harchive1).
    destruct (Hempty w1 t1 eq_refl Hlook1)
      as (w2 & t2 & Hrun & Hlook & Hstatus & Hfiles & Harchive & _).
    exists w2, t2. split; [exact Hrun |]. split; [exact Hlook |].
    split; [exact Hstatus |]. split; congruence.
Defined.
End TerminalStateExamples.

(** * Further properties *)

(** ** RetentionSweeper: what the sweep does to the disk *)

Section SweepDiskProperties.
Context `{PyRuntime}.

(** The first loop, for one id: the directory of that id is gone
    afterwards unless it cannot be removed; nothing else changes. *)
Lemma sweep_task_dir_step acc id :
  locked_dirs (sweep_task_dir acc id).2 = locked_dirs acc.2
  ∧ locked_uploads (sweep_task_dir acc id).2 = locked_uploads acc.2
  ∧ upload_dir (sweep_task_dir acc id).2 = upload_dir acc.2
  ∧ ∀ k, output_dir (sweep_task_dir acc id).2 !! k
         = if decide (k = id ∧ id ∉ locked_dirs acc.2) then None
           else output_dir acc.2 !! k.
Proof.
  destruct acc as [[c f] d]. unfold sweep_task_dir, rmtree. cbn [snd].
  destruct (output_dir d !! id) as [dir |] eqn:Hdir.
  - destruct (decide (id ∈ locked_dirs d)) as [Hlocked | Hfree]; cbn [snd].
    + repeat split. intros k. rewrite decide_False; [reflexivity | tauto].
    + repeat split. intros k. cbn [output_dir with_output_dir].
      destruct (decide (k = id)) as [-> | Hne].
      * rewrite lookup_delete_eq. by rewrite decide_True.
      * rewrite lookup_delete_ne by congruence.
        rewrite decide_False; [reflexivity | tauto].
  - repeat split. intros k.
    destruct (decide _) as [[-> _] |]; [exact Hdir | reflexivity].
Qed.

Lemma sweep_task_dir_fold ids acc :
  locked_dirs (foldl sweep_task_dir acc ids).2 = locked_dirs acc.2
  ∧ locked_uploads (foldl sweep_task_dir acc ids).2 = locked_uploads acc.2
  ∧ upload_dir (foldl sweep_task_dir acc ids).2 = upload_dir acc.2
  ∧ ∀ k, output_dir (foldl sweep_task_dir acc ids).2 !! k
         = if decide (k ∈ ids ∧ k ∉ locked_dirs acc.2) then None
           else output_dir acc.2 !! k.
Proof.
  revert acc. induction ids as [| id ids IH]; intros acc.
  - do 3 (split; [reflexivity |]). intros k. cbn [foldl].
    destruct (decide (k ∈ [] ∧ k ∉ locked_dirs acc.2)) as [[Hin _] |];
      [inversion Hin | reflexivity].
  - cbn [foldl].
    destruct (sweep_task_dir_step acc id) as (Hl & Hu & Hup & Hout).
    destruct (IH (sweep_task_dir acc id)) as (Hl' & Hu' & Hup' & Hout').
    split; [congruence |]. split; [congruence |]. split; [congruence |].
    intros k. rewrite Hout', Hl, Hout.
    destruct (decide (k ∈ ids ∧ k ∉ locked_dirs acc.2)) as [[Hin Hfree] | Hno].
    + rewrite decide_True; [reflexivity |].
      split; [by apply list_elem_of_further | exact Hfree].
    + destruct (decide (k = id ∧ id ∉ locked_dirs acc.2)) as [[-> Hfree] | Hno'].
      * rewrite decide_True; [reflexivity |].
        split; [apply list_elem_of_here | exact Hfree].
      * rewrite decide_False; [reflexivity |].
        intros [Hin Hfree]. apply elem_of_cons in Hin as [-> | Hin]; tauto.
Qed.

(** The scan of the output root, for one directory. *)
Lemma sweep_orphan_step tasks cutoff_time acc entry :
  locked_dirs (sweep_orphan tasks cutoff_time acc entry).2 = locked_dirs acc.2
  ∧ locked_uploads (sweep_orphan tasks cutoff_time acc entry).2
    = locked_uploads acc.2
  ∧ upload_dir (sweep_orphan tasks cutoff_time acc entry).2 = upload_dir acc.2
  ∧ ∀ k, output_dir (sweep_orphan tasks cutoff_time acc entry).2 !! k
         = if decide (k = entry.1 ∧ tasks !! k = None
                      ∧ dir_mtime entry.2 < cutoff_time
                      ∧ (k ∉ locked_dirs acc.2)
                      ∧ is_Some (output_dir acc.2 !! k))
           then None else output_dir acc.2 !! k.
Proof.
  destruct acc as [[c f] d], entry as [id dir].
  unfold sweep_orphan, rmtree. cbn [fst snd].
  destruct (tasks !! id) as [t |] eqn:Htask.
  { repeat split. intros k. rewrite decide_False; [reflexivity |].
    intros (-> & Hnone & _). congruence. }
  destruct (dir_mtime dir <? cutoff_time) eqn:Hold.
  2:{ apply Z.ltb_ge in Hold. repeat split. intros k.
      rewrite decide_False; [reflexivity |]. intros (_ & _ & Hlt & _). lia. }
  apply Z.ltb_lt in Hold.
  destruct (decide (id ∈ locked_dirs d)) as [Hlocked | Hfree]; cbn [snd].
  - repeat split. intros k. rewrite decide_False; [reflexivity |].
    intros (-> & _ & _ & Hfree & _). contradiction.
  - repeat split. intros k. cbn [output_dir with_output_dir].
    destruct (decide (k = id)) as [-> | Hne].
    + rewrite lookup_delete_eq.
      destruct (output_dir d !! id) as [dir' |] eqn:Hdir.
      * rewrite decide_True; [reflexivity | eauto 10].
      * rewrite decide_False; [reflexivity |].
        intros (_ & _ & _ & _ & [? ?]). discriminate.
    + rewrite lookup_delete_ne by congruence.
      rewrite decide_False; [reflexivity | tauto].
Qed.

Lemma sweep_orphan_fold tasks cutoff_time entries acc k :
  locked_dirs (foldl (sweep_orphan tasks cutoff_time) acc entries).2
  = locked_dirs acc.2
  ∧ locked_uploads (foldl (sweep_orphan tasks cutoff_time) acc entries).2
    = locked_uploads acc.2
  ∧ upload_dir (foldl (sweep_orphan tasks cutoff_time) acc entries).2
    = upload_dir acc.2
  ∧ (output_dir acc.2 !! k = None →
     output_dir (foldl (sweep_orphan tasks cutoff_time) acc entries).2 !! k
     = None)
  ∧ (∀ dir, (k, dir) ∈ entries → tasks !! k = None →
            dir_mtime dir < cutoff_time → k ∉ locked_dirs acc.2 →
     output_dir (foldl (sweep_orphan tasks cutoff_time) acc entries).2 !! k
     = None)
  ∧ ((∀ dir, (k, dir) ∈ entries →
             is_Some (tasks !! k) ∨ cutoff_time ≤ dir_mtime dir
             ∨ k ∈ locked_dirs acc.2) →
     output_dir (foldl (sweep_orphan tasks cutoff_time) acc entries).2 !! k
     = output_dir acc.2 !! k).
Proof.
  revert acc. induction entries as [| entry entries IH]; intros acc.
  - repeat split; try done. intros dir Hin. inversion Hin.
  - cbn [foldl].
    destruct (sweep_orphan_step tasks cutoff_time acc entry)
      as (Hl & Hu & Hup & Hout).
    destruct (IH (sweep_orphan tasks cutoff_time acc entry))
      as (Hl' & Hu' & Hup' & Hnone' & Hold' & Hkeep').
    split; [congruence |]. split; [congruence |]. split; [congruence |].
    assert (Hstays : output_dir acc.2 !! k = None →
              output_dir (sweep_orphan tasks cutoff_time acc entry).2 !! k
              = None).
    { intros Hnone. rewrite Hout.
      destruct (decide _); [reflexivity | exact Hnone]. }
    split; [| split].
    + intros Hnone. apply Hnone', Hstays, Hnone.
    + intros dir Hin Htask Hold Hfree.
      apply elem_of_cons in Hin as [<- | Hin].
      * apply Hnone'. rewrite Hout. cbn [fst snd].
        destruct (decide _) as [| Hno]; [reflexivity |].
        destruct (output_dir acc.2 !! k) eqn:Hdir; [| reflexivity].
        exfalso. apply Hno. eauto 10.
      * apply (Hold' dir Hin Htask Hold). rewrite Hl. exact Hfree.
    + intros Hno. rewrite Hkeep'.
      * rewrite Hout. rewrite decide_False; [reflexivity |].
        intros (-> & Htask & Hold & Hfree & _).
        destruct (Hno entry.2) as [[? ?] | [? | ?]];
          [destruct entry; apply list_elem_of_here | congruence | lia
          | contradiction].
      * intros dir Hin. rewrite Hl. apply Hno. by apply list_elem_of_further.
Qed.

(** The scan of the upload root, for one file. *)
Lemma sweep_upload_step cutoff_time acc entry :
  locked_uploads (sweep_upload cutoff_time acc entry).2 = locked_uploads acc.2
  ∧ output_dir (sweep_upload cutoff_time acc entry).2 = output_dir acc.2
  ∧ ∀ k, upload_dir (sweep_upload cutoff_time acc entry).2 !! k
         = if decide (k = entry.1 ∧ st_mtime entry.2 < cutoff_time
                      ∧ k ∉ locked_uploads acc.2)
           then None else upload_dir acc.2 !! k.
Proof.
  destruct acc as [freed d], entry as [name f].
  unfold sweep_upload, unlink. cbn [fst snd].
  destruct (st_mtime f <? cutoff_time) eqn:Hold.
  2:{ apply Z.ltb_ge in Hold. repeat split. intros k.
      rewrite decide_False; [reflexivity |]. intros (_ & Hlt & _). lia. }
  apply Z.ltb_lt in Hold.
  destruct (decide (name ∈ locked_uploads d)) as [Hlocked | Hfree]; cbn [snd].
  - repeat split. intros k. rewrite decide_False; [reflexivity |].
    intros (-> & _ & Hfree). contradiction.
  - repeat split. intros k. cbn [upload_dir with_upload_dir].
    destruct (decide (k = name)) as [-> | Hne].
    + rewrite lookup_delete_eq. by rewrite decide_True.
    + rewrite lookup_delete_ne by congruence.
      rewrite decide_False; [reflexivity | tauto].
Qed.

Lemma sweep_upload_fold cutoff_time entries acc k :
  locked_uploads (foldl (sweep_upload cutoff_time) acc entries).2
  = locked_uploads acc.2
  ∧ output_dir (foldl (sweep_upload cutoff_time) acc entries).2
    = output_dir acc.2
  ∧ (upload_dir acc.2 !! k = None →
     upload_dir (foldl (sweep_upload cutoff_time) acc entries).2 !! k = None)
  ∧ (∀ f, (k, f) ∈ entries → st_mtime f < cutoff_time →
          k ∉ locked_uploads acc.2 →
     upload_dir (foldl (sweep_upload cutoff_time) acc entries).2 !! k = None)
  ∧ ((∀ f, (k, f) ∈ entries →
           cutoff_time ≤ st_mtime f ∨ k ∈ locked_uploads acc.2) →
     upload_dir (foldl (sweep_upload cutoff_time) acc entries).2 !! k
     = upload_dir acc.2 !! k).
Proof.
  revert acc. induction entries as [| entry entries IH]; intros acc.
  - repeat split; try done. intros f Hin. inversion Hin.
  - cbn [foldl].
    destruct (sweep_upload_step cutoff_time acc entry) as (Hl & Ho & Hup).
    destruct (IH (sweep_upload cutoff_time acc entry))
      as (Hl' & Ho' & Hnone' & Hold' & Hkeep').
    split; [congruence |]. split; [congruence |].
    assert (Hstays : upload_dir acc.2 !! k = None →
              upload_dir (sweep_upload cutoff_time acc entry).2 !! k = None).
    { intros Hnone. rewrite Hup.
      destruct (decide _); [reflexivity | exact Hnone]. }
    split; [| split].
    + intros Hnone. apply Hnone', Hstays, Hnone.
    + intros f Hin Hold Hfree. apply elem_of_cons in Hin as [<- | Hin].
      * apply Hnone'. rewrite Hup. cbn [fst snd]. by rewrite decide_True.
      * apply (Hold' f Hin Hold). rewrite Hl. exact Hfree.
    + intros Hno. rewrite Hkeep'.
      * rewrite Hup. rewrite decide_False; [reflexivity |].
        intros (-> & Hold & Hfree).
        destruct (Hno entry.2) as [? | ?];
          [destruct entry; apply list_elem_of_here | lia | contradiction].
      * intros f Hin. rewrite Hl. apply Hno. by apply list_elem_of_further.
Qed.
(** The disk a sweep leaves, as the three scans one after the other. *)
Lemma cleanup_old_tasks_disk hours w :
  let cutoff_time := clock w - timedelta_hours hours in
  let ids := tasks_to_remove cutoff_time (active_tasks w) in
  let tasks := foldl (λ m task_id, delete task_id m) (active_tasks w) ids in
  let acc1 := foldl sweep_task_dir (0, 0, disk w) ids in
  let acc2 := foldl (sweep_orphan tasks cutoff_time) acc1
                (map_to_list (output_dir acc1.2)) in
  let acc3 := foldl (sweep_upload cutoff_time) (acc2.1.2, acc2.2)
                (map_to_list (upload_dir acc2.2)) in
  disk (cleanup_old_tasks hours w).2 = acc3.2.
Proof.
  cbv zeta. unfold cleanup_old_tasks.
  destruct (foldl sweep_task_dir _ _) as [[c1 f1] d1]. cbn [fst snd].
  destruct (foldl (sweep_orphan _ _) _ _) as [[c2 f2] d2]. cbn [fst snd].
  destruct (foldl (sweep_upload _) _ _) as [f3 d3]. reflexivity.
Qed.

(** X2. A registered task that is older than the threshold and whose
    directory can be removed loses its record and its directory in the
    same sweep. *)
Theorem sweep_removes_old_task_with_directory
    (hours : Z) (w : World) (task_id : string) (t : Task) :
  active_tasks w !! task_id = Some t →
  last_accessed t < clock w - timedelta_hours hours →
  task_id ∉ locked_dirs (disk w) →
  active_tasks (cleanup_old_tasks hours w).2 !! task_id = None
  ∧ output_dir (disk (cleanup_old_tasks hours w).2) !! task_id = None.
Proof.
  intros Hlook Hold Hfree.
  assert (Hin : task_id ∈ tasks_to_remove (clock w - timedelta_hours hours)
                            (active_tasks w))
    by (apply elem_of_tasks_to_remove; eauto).
  split.
  - destruct (cleanup_old_tasks_registry hours w)
      as (counts & w' & Hrun & Htasks).
    rewrite Hrun. cbn [snd]. rewrite Htasks, lookup_foldl_delete.
    by rewrite decide_True.
  - pose proof (cleanup_old_tasks_disk hours w) as Hdisk. cbv zeta in Hdisk.
    rewrite Hdisk.
    match goal with
    | |- output_dir (foldl (sweep_upload ?c) ?acc ?l).2 !! _ = _ =>
        destruct (sweep_upload_fold c l acc task_id) as (_ & Hout & _)
    end.
    rewrite Hout. cbn [snd].
    match goal with
    | |- output_dir (foldl (sweep_orphan ?tk ?c) ?acc ?l).2 !! _ = _ =>
        destruct (sweep_orphan_fold tk c l acc task_id)
          as (_ & _ & _ & Hnone & _)
    end.
    apply Hnone.
    destruct (sweep_task_dir_fold
                (tasks_to_remove (clock w - timedelta_hours hours)
                   (active_tasks w)) (0, 0, disk w)) as (_ & _ & _ & Hout1).
    rewrite Hout1. cbn [snd]. by rewrite decide_True.
Qed.

(** X3. A registered task that is not older than the threshold keeps
    its record, and its directory is left exactly as it was: the sweep
    never deletes the files of a task it keeps. *)
Theorem sweep_keeps_recent_task_and_directory
    (hours : Z) (w : World) (task_id : string) (t : Task) :
  active_tasks w !! task_id = Some t →
  clock w - timedelta_hours hours ≤ last_accessed t →
  active_tasks (cleanup_old_tasks hours w).2 !! task_id = Some t
  ∧ output_dir (disk (cleanup_old_tasks hours w).2) !! task_id
    = output_dir (disk w) !! task_id.
Proof.
  intros Hlook Hrecent.
  assert (Hnotin : task_id ∉ tasks_to_remove
                     (clock w - timedelta_hours hours) (active_tasks w)).
  { intros Hin. apply elem_of_tasks_to_remove in Hin as (t' & Hlook' & Hlt).
    assert (t' = t) by congruence. subst t'. lia. }
  assert (Hkept : foldl (λ m id, delete id m) (active_tasks w)
                    (tasks_to_remove (clock w - timedelta_hours hours)
                       (active_tasks w)) !! task_id = Some t).
  { rewrite lookup_foldl_delete. by rewrite decide_False. }
  split.
  - destruct (cleanup_old_tasks_registry hours w)
      as (counts & w' & Hrun & Htasks).
    rewrite Hrun. cbn [snd]. rewrite Htasks. exact Hkept.
  - pose proof (cleanup_old_tasks_disk hours w) as Hdisk. cbv zeta in Hdisk.
    rewrite Hdisk.
    match goal with
    | |- output_dir (foldl (sweep_upload ?c) ?acc ?l).2 !! _ = _ =>
        destruct (sweep_upload_fold c l acc task_id) as (_ & Hout & _)
    end.
    rewrite Hout. cbn [snd].
    match goal with
    | |- output_dir (foldl (sweep_orphan ?tk ?c) ?acc ?l).2 !! _ = _ =>
        destruct (sweep_orphan_fold tk c l acc task_id)
          as (_ & _ & _ & _ & _ & Hkeep)
    end.
    rewrite Hkeep by (intros dir _; left; rewrite Hkept; eauto).
    destruct (sweep_task_dir_fold
                (tasks_to_remove (clock w - timedelta_hours hours)
                   (active_tasks w)) (0, 0, disk w)) as (_ & _ & _ & Hout1).
    rewrite Hout1. cbn [snd]. rewrite decide_False; [reflexivity | tauto].
Qed.

(** X4. A directory of the output root that no record refers to is
    removed by the sweep when its modification time is before the cutoff
    and it can be removed. When it is not older than the cutoff, the sweep
    does not try to remove it and it is left exactly as it was. When its
    removal raises, the error is logged and the directory is still there
    after the sweep, holding no file that it did not hold before; nothing
    is said of how many of its files survive a removal that failed. *)
Theorem sweep_reclaims_old_orphan_directories
    (hours : Z) (w : World) (task_id : string) (dir : Dir) :
  active_tasks w !! task_id = None →
  output_dir (disk w) !! task_id = Some dir →
  (dir_mtime dir < clock w - timedelta_hours hours →
   task_id ∉ locked_dirs (disk w) →
   output_dir (disk (cleanup_old_tasks hours w).2) !! task_id = None)
  ∧ (clock w - timedelta_hours hours ≤ dir_mtime dir →
     output_dir (disk (cleanup_old_tasks hours w).2) !! task_id = Some dir)
  ∧ (task_id ∈ locked_dirs (disk w) →
     ∃ dir',
       output_dir (disk (cleanup_old_tasks hours w).2) !! task_id = Some dir'
       ∧ dir_files dir' ⊆ dir_files dir).
Proof.
  intros Hnone Hdir.
  assert (Hnotin : task_id ∉ tasks_to_remove
                     (clock w - timedelta_hours hours) (active_tasks w)).
  { intros Hin. apply elem_of_tasks_to_remove in Hin as (t' & Hlook' & _).
    congruence. }
  assert (Hgone : foldl (λ m id, delete id m) (active_tasks w)
                    (tasks_to_remove (clock w - timedelta_hours hours)
                       (active_tasks w)) !! task_id = None).
  { rewrite lookup_foldl_delete. case_decide; [reflexivity | exact Hnone]. }
  destruct (sweep_task_dir_fold
              (tasks_to_remove (clock w - timedelta_hours hours)
                 (active_tasks w)) (0, 0, disk w)) as (Hl1 & _ & _ & Hout1).
  cbn [snd] in Hl1.
  assert (Hdir1 : output_dir
                    (foldl sweep_task_dir (0, 0, disk w)
                       (tasks_to_remove (clock w - timedelta_hours hours)
                          (active_tasks w))).2 !! task_id = Some dir).
  { rewrite Hout1. cbn [snd]. rewrite decide_False; [exact Hdir | tauto]. }
  pose proof (cleanup_old_tasks_disk hours w) as Hdisk. cbv zeta in Hdisk.
  rewrite Hdisk.
  match goal with
  | |- context [foldl (sweep_upload ?c) ?acc ?l] =>
      destruct (sweep_upload_fold c l acc task_id) as (_ & Hout & _)
  end.
  rewrite Hout. cbn [snd].
  match goal with
  | |- context [foldl (sweep_orphan ?tk ?c) ?acc ?l] =>
      destruct (sweep_orphan_fold tk c l acc task_id)
        as (_ & _ & _ & _ & Hold & Hkeep)
  end.
  assert (Hstays : clock w - timedelta_hours hours ≤ dir_mtime dir
                   ∨ task_id ∈ locked_dirs (disk w) →
            output_dir
              (foldl (sweep_orphan
                        (foldl (λ m id, delete id m) (active_tasks w)
                           (tasks_to_remove
                              (clock w - timedelta_hours hours)
                              (active_tasks w)))
                        (clock w - timedelta_hours hours))
                 (foldl sweep_task_dir (0, 0, disk w)
                    (tasks_to_remove (clock w - timedelta_hours hours)
                       (active_tasks w)))
                 (map_to_list
                    (output_dir
                       (foldl sweep_task_dir (0, 0, disk w)
                          (tasks_to_remove
                             (clock w - timedelta_hours hours)
                             (active_tasks w))).2))).2 !! task_id
            = Some dir).
  { intros Hcase. rewrite Hkeep; [exact Hdir1 |].
    intros dir' Hin. apply elem_of_map_to_list in Hin.
    assert (dir' = dir) by congruence. subst dir'.
    rewrite Hl1. tauto. }
  split; [| split].
  - intros Hlt Hfree. apply (Hold dir); [| exact Hgone | exact Hlt |].
    + apply elem_of_map_to_list. exact Hdir1.
    + rewrite Hl1. exact Hfree.
  - intros Hrecent. apply Hstays. left. exact Hrecent.
  - intros Hlocked. exists dir. split; [| reflexivity].
    apply Hstays. right. exact Hlocked.
Qed.

(** X5. A file of the upload root is deleted by the sweep when its
    modification time is before the cutoff and it can be deleted, whether
    or not a task still names it as its input; it is left as it was
    otherwise. *)
Theorem sweep_reclaims_old_uploads
    (hours : Z) (w : World) (name : string) (f : File) :
  upload_dir (disk w) !! name = Some f →
  (st_mtime f < clock w - timedelta_hours hours →
   name ∉ locked_uploads (disk w) →
   upload_dir (disk (cleanup_old_tasks hours w).2) !! name = None)
  ∧ (clock w - timedelta_hours hours ≤ st_mtime f
     ∨ name ∈ locked_uploads (disk w) →
     upload_dir (disk (cleanup_old_tasks hours w).2) !! name = Some f).
Proof.
  intros Hfile.
  pose proof (cleanup_old_tasks_disk hours w) as Hdisk. cbv zeta in Hdisk.
  rewrite Hdisk. clear Hdisk.
  destruct (sweep_task_dir_fold
              (tasks_to_remove (clock w - timedelta_hours hours)
                 (active_tasks w)) (0, 0, disk w)) as (_ & Hu1 & Hup1 & _).
  cbn [snd] in Hu1, Hup1.
  set (acc1 := foldl sweep_task_dir (0, 0, disk w) _) in *.
  match goal with
  | |- context [foldl (sweep_orphan ?tk ?c) acc1 ?l] =>
      destruct (sweep_orphan_fold tk c l acc1 name) as (_ & Hu2 & Hup2 & _);
      set (acc2 := foldl (sweep_orphan tk c) acc1 l) in *
  end.
  assert (Hfile2 : upload_dir acc2.2 !! name = Some f) by congruence.
  assert (Hlocked2 : locked_uploads acc2.2 = locked_uploads (disk w))
    by congruence.
  destruct (sweep_upload_fold (clock w - timedelta_hours hours)
              (map_to_list (upload_dir acc2.2)) (acc2.1.2, acc2.2) name)
    as (_ & _ & _ & Hold & Hkeep).
  cbn [snd] in Hold, Hkeep. split.
  - intros Hlt Hfree. apply (Hold f); [| exact Hlt | congruence].
    apply elem_of_map_to_list. exact Hfile2.
  - intros Hcase. rewrite Hkeep; [exact Hfile2 |].
    intros f' Hin. apply elem_of_map_to_list in Hin.
    assert (f' = f) by congruence. subst f'. rewrite Hlocked2. exact Hcase.
Qed.
End SweepDiskProperties.

Section SweepDiskExamples.
#[local] Existing Instance sample_runtime.

Lemma sweep_removes_old_task_with_directory_witness :
  active_tasks (cleanup_old_tasks 24 (finished_world ∅)).2 !! "t" = None
  ∧ output_dir (disk (cleanup_old_tasks 24 (finished_world ∅)).2) !! "t"
    = None.
Proof.
  apply (sweep_removes_old_task_with_directory (H := sample_runtime)
           24 (finished_world ∅) "t" finished_task);
    [reflexivity | vm_compute; reflexivity | apply not_elem_of_empty].
Defined.

Lemma sweep_keeps_recent_task_and_directory_witness :
  active_tasks (cleanup_old_tasks 26 (finished_world ∅)).2 !! "t"
  = Some finished_task
  ∧ output_dir (disk (cleanup_old_tasks 26 (finished_world ∅)).2) !! "t"
    = Some finished_dir.
Proof.
  apply (sweep_keeps_recent_task_and_directory (H := sample_runtime)
           26 (finished_world ∅) "t" finished_task);
    [reflexivity | vm_compute; discriminate].
Defined.

Lemma sweep_reclaims_old_orphan_directories_witness :
  output_dir (disk (cleanup_old_tasks 24 orphan_world).2) !! "t" = None
  ∧ output_dir (disk (cleanup_old_tasks 26 orphan_world).2) !! "t"
    = Some finished_dir
  ∧ ∃ dir',
      output_dir
        (disk (cleanup_old_tasks 24
                 (with_tasks ∅ (finished_world {[ "t" ]}))).2) !! "t"
      = Some dir'
      ∧ dir_files dir' ⊆ dir_files finished_dir.
Proof.
  split; [| split].
  - apply (sweep_reclaims_old_orphan_directories (H := sample_runtime)
             24 orphan_world "t" finished_dir);
      [reflexivity | reflexivity | vm_compute; reflexivity
      | apply not_elem_of_empty].
  - apply (sweep_reclaims_old_orphan_directories (H := sample_runtime)
             26 orphan_world "t" finished_dir);
      [reflexivity | reflexivity | vm_compute; discriminate].
  - apply (sweep_reclaims_old_orphan_directories (H := sample_runtime)
             24 (with_tasks ∅ (finished_world {[ "t" ]})) "t" finished_dir);
      [reflexivity | reflexivity |].
    change ("t" ∈ ({[ "t" ]} : gset string)).
    apply elem_of_singleton. reflexivity.
Defined.

Lemma sweep_reclaims_old_uploads_witness :
  upload_dir (disk (cleanup_old_tasks 24 sample_world).2) !! "input.mp4"
  = None.
Proof.
  apply (sweep_reclaims_old_uploads (H := sample_runtime)
           24 sample_world "input.mp4"
           {| st_size := 1000; st_mtime := 0; namelist := None |});
    [reflexivity | vm_compute; reflexivity | apply not_elem_of_empty].
Defined.
End SweepDiskExamples.

(** ** TaskStore: registering, polling, deleting *)

Section StoreProperties.
Context `{PyRuntime}.


(** X6. A task that has just been registered by [process_video] is
    reported by the status query as processing, with progress 0, the
    requested total and no message, and its directory exists; a directory
    of that name that was already there is kept with its files; and no
    other task and no other directory is touched. *)
Theorem process_video_registers_task
    (task_id input_file : string) (copies_count : Z) (output_format : string)
    (w : World) :
  let w1 := (process_video task_id input_file copies_count output_format w).2
  in
  (process_video task_id input_file copies_count output_format w).1
  = Ok task_id
  ∧ (get_status task_id w1).1
    = Ok (ProcessStatus task_id "processing" 0 copies_count None)
  ∧ dir_exists task_id (disk w1) = true
  ∧ (∀ dir, output_dir (disk w) !! task_id = Some dir →
            output_dir (disk w1) !! task_id = Some dir)
  ∧ (output_dir (disk w) !! task_id = None →
     ∃ dir, output_dir (disk w1) !! task_id = Some dir ∧ dir_files dir = ∅)
  ∧ (∀ other, other ≠ task_id →
       active_tasks w1 !! other = active_tasks w !! other
       ∧ output_dir (disk w1) !! other = output_dir (disk w) !! other)
  ∧ upload_dir (disk w1) = upload_dir (disk w).
Proof.
  cbv zeta. unfold process_video. cbn [fst snd].
  split; [reflexivity |]. split.
  { unfold get_status, mbind, M_bind, get_task_status.
    cbn [active_tasks with_tasks]. rewrite lookup_insert_eq. reflexivity. }
  cbn [disk with_tasks with_disk output_dir with_output_dir upload_dir
       active_tasks].
  destruct (output_dir (disk w) !! task_id) as [dir0 |] eqn:Hdir.
  - split; [unfold dir_exists; cbn; rewrite Hdir;
            apply bool_decide_eq_true; eauto |].
    split; [intros dir Heq; congruence |]. split; [discriminate |].
    split; [| reflexivity].
    intros other Hne. split; [apply lookup_insert_ne; congruence | reflexivity].
  - split; [unfold dir_exists; cbn; rewrite lookup_insert_eq;
            apply bool_decide_eq_true; eauto |].
    split; [discriminate |].
    split; [intros _; eexists; split; [apply lookup_insert_eq | reflexivity] |].
    split; [| reflexivity].
    intros other Hne. split; apply lookup_insert_ne; congruence.
Qed.

(** X7. Reading a task, by [get_task_status] or by [get_task_files],
    sets its [last_accessed] to the time of the read and changes nothing
    else; a sweep that runs while that read is at most [hours] hours
    old keeps the task as the read left it. *)
Theorem polled_task_survives_sweep
    (hours : Z) (w w2 : World) (task_id : string) (t : Task) :
  active_tasks w !! task_id = Some t →
  (active_tasks w2 !! task_id
   = active_tasks (get_task_status task_id w).2 !! task_id
   ∨ active_tasks w2 !! task_id
     = active_tasks (get_task_files task_id w).2 !! task_id) →
  clock w2 - timedelta_hours hours ≤ clock w →
  (get_task_status task_id w).1 = Ok (Some (set_last_accessed (clock w) t))
  ∧ active_tasks (get_task_status task_id w).2 !! task_id
    = Some (set_last_accessed (clock w) t)
  ∧ active_tasks (get_task_files task_id w).2 !! task_id
    = Some (set_last_accessed (clock w) t)
  ∧ active_tasks (cleanup_old_tasks hours w2).2 !! task_id
    = Some (set_last_accessed (clock w) t).
Proof.
  intros Hlook Hread Hrecent.
  assert (Hstatus : active_tasks (get_task_status task_id w).2 !! task_id
                    = Some (set_last_accessed (clock w) t)).
  { unfold get_task_status. rewrite Hlook. cbn. apply lookup_insert_eq. }
  assert (Hfiles : active_tasks (get_task_files task_id w).2 !! task_id
                   = Some (set_last_accessed (clock w) t)).
  { unfold get_task_files. rewrite Hlook.
    destruct (dir_exists _ _); cbn; apply lookup_insert_eq. }
  split; [unfold get_task_status; by rewrite Hlook |].
  split; [exact Hstatus |]. split; [exact Hfiles |].
  assert (Hlook2 : active_tasks w2 !! task_id
                   = Some (set_last_accessed (clock w) t))
    by (destruct Hread as [-> | ->]; assumption).
  destruct (cleanup_old_tasks_registry hours w2)
    as (counts & w' & Hrun & Htasks).
  rewrite Hrun. cbn [snd]. rewrite Htasks, lookup_foldl_delete.
  rewrite decide_False; [exact Hlook2 |].
  intros Hin. apply elem_of_tasks_to_remove in Hin as (t' & Hlook' & Hlt).
  assert (t' = set_last_accessed (clock w) t) by congruence. subst t'.
  cbn [last_accessed set_last_accessed] in Hlt. lia.
Qed.

End StoreProperties.

Section StoreExamples.
#[local] Existing Instance sample_runtime.

Lemma process_video_registers_task_witness :
  (get_status "t" (process_video "t" "input.mp4" 3 "mp4" sample_world).2).1
  = Ok (ProcessStatus "t" "processing" 0 3 None)
  ∧ active_tasks (process_video "t" "input.mp4" 3 "mp4" sample_world).2
      !! "u" = None.
Proof.
  pose proof (process_video_registers_task (H := sample_runtime)
                "t" "input.mp4" 3 "mp4" sample_world) as Hreg.
  cbv zeta in Hreg. destruct Hreg as (_ & Hstatus & _ & _ & _ & Hother & _).
  split; [exact Hstatus |].
  destruct (Hother "u") as [Hrecord _]; [discriminate |].
  rewrite Hrecord. reflexivity.
Defined.

(** Task [t] was last accessed 25 hours ago; it is read, and the sweep
    of 24 hours that follows keeps it. *)
Lemma polled_task_survives_sweep_witness :
  active_tasks
    (cleanup_old_tasks 24 (get_task_status "t" (finished_world ∅)).2).2
    !! "t"
  = Some (set_last_accessed 1700000000000000 finished_task).
Proof.
  apply (polled_task_survives_sweep (H := sample_runtime) 24
           (finished_world ∅) (get_task_status "t" (finished_world ∅)).2
           "t" finished_task);
    [reflexivity | left; reflexivity | vm_compute; discriminate].
Defined.

End StoreExamples.

(** ** Archive download: the requests that are turned down *)

Section ArchiveRejectionProperties.
Context `{PyRuntime}.

(** Closes a leaf of [download_archive_cases]: the answer first, then
    the world, which is the one of the request with the record
    re-inserted once or twice. *)
Ltac leaf Hlook answer :=
  eexists; (split; [| split]); revgoals;
  [answer
  | cbn [active_tasks with_tasks];
    rewrite ?dom_insert_lookup_L
      by (rewrite ?lookup_insert_eq, ?Hlook; eauto);
    reflexivity
  | reflexivity].

Ltac raised := left; eexists _, _; split; [reflexivity | lia].

(** The handler either raises one of its HTTP errors or answers and
    schedules the cleanup of this task alone; either way it leaves the
    disk alone and neither adds nor removes a record. *)
Lemma download_archive_cases task_id w :
  ∃ w1,
    disk w1 = disk w
    ∧ dom (active_tasks w1) = dom (active_tasks w)
    ∧ ((∃ code detail,
          download_archive task_id w = (Raise (HTTPException code detail), w1)
          ∧ (code = 400 ∨ code = 404 ∨ code = 500))
       ∨ (∃ response,
            download_archive task_id w = (Ok (response, [task_id]), w1))).
Proof.
  unfold download_archive, mbind, M_bind, get_task_status, raise, mret, M_ret.
  destruct (active_tasks w !! task_id) as [t |] eqn:Hlook;
    [| leaf Hlook raised].
  cbn [status archive set_last_accessed].
  destruct (decide (status t ≠ completed)) as [Hstatus | Hstatus];
    [leaf Hlook raised |].
  destruct (archive t) as [[| a name] |];
    [leaf Hlook raised | | leaf Hlook raised].
  unfold get_task_files. cbn [active_tasks with_tasks disk clock].
  rewrite lookup_insert_eq. cbn [disk with_tasks].
  destruct (dir_exists task_id (disk w)); [| leaf Hlook raised].
  unfold get_world. cbn [disk with_tasks].
  destruct (output_file task_id (String a name) (disk w)) as [f |];
    [| leaf Hlook raised].
  destruct (st_size f =? 0); [leaf Hlook raised |].
  leaf Hlook ltac:(right; eexists; reflexivity).
Qed.

(** X9. An archive request that is turned down deletes nothing: the
    error is one of the handler's HTTP errors (400, 404 or 500), the disk
    is unchanged, and the registry holds the same task ids as before. *)
Theorem rejected_archive_request_deletes_nothing
    (task_id : string) (w w' : World) (e : Exn) :
  serve_download_archive task_id w = (Raise e, w') →
  disk w' = disk w
  ∧ dom (active_tasks w') = dom (active_tasks w)
  ∧ ∃ code detail, e = HTTPException code detail
                   ∧ (code = 400 ∨ code = 404 ∨ code = 500).
Proof.
  unfold serve_download_archive, mbind, M_bind.
  destruct (download_archive_cases task_id w)
    as (w1 & Hdisk & Hdom & [(code & detail & Hrun & Hcode)
                             | (response & Hrun)]);
    rewrite Hrun.
  - intros Heq. injection Heq as <- <-. eauto 10.
  - cbn [foldr]. unfold mbind, M_bind, mret, M_ret.
    destruct (cleanup_task_after_download_cases task_id w1)
      as [(_ & _ & Hclean) | (_ & w2 & Hclean & _)];
      rewrite Hclean; discriminate.
Qed.
End ArchiveRejectionProperties.

Section ArchiveRejectionExamples.
#[local] Existing Instance sample_runtime.

(** The task submitted in the scenario is still processing: its archive
    is refused with 400 and everything stays. *)
Lemma rejected_archive_request_deletes_nothing_witness :
  (serve_download_archive "t" scenario_submitted).1
  = Raise (HTTPException 400 "Задача не завершена. Статус: processing")
  ∧ disk (serve_download_archive "t" scenario_submitted).2
    = disk scenario_submitted
  ∧ dom (active_tasks (serve_download_archive "t" scenario_submitted).2)
    = dom (active_tasks scenario_submitted).
Proof.
  assert (Hresult : (serve_download_archive "t" scenario_submitted).1
            = Raise (HTTPException 400
                       "Задача не завершена. Статус: processing"))
    by (vm_compute; reflexivity).
  split; [exact Hresult |].
  destruct (serve_download_archive "t" scenario_submitted) as [r w'] eqn:Hrun.
  cbn [fst snd] in *. subst r.
  destruct (rejected_archive_request_deletes_nothing (H := sample_runtime)
              "t" scenario_submitted w' _ Hrun) as (Hdisk & Hdom & _).
  split; assumption.
Defined.
End ArchiveRejectionExamples.

(** ** EncodeInvoker: one copy *)

Section EncodeProperties.
Context `{PyRuntime}.
Variable ffmpeg : list string → Disk → bool * Disk.

(** The command: where its paths are, and what it draws. *)
Lemma _build_ffmpeg_command_paths input_path output_path params g :
  (_build_ffmpeg_command input_path output_path params g).1 !! 2%nat
  = Some input_path
  ∧ last (_build_ffmpeg_command input_path output_path params g).1
    = Some output_path
  ∧ length (_build_ffmpeg_command input_path output_path params g).1 = 43%nat
  ∧ ∀ input_path' output_path' params',
      (_build_ffmpeg_command input_path' output_path' params' g).2
      = (_build_ffmpeg_command input_path output_path params g).2.
Proof.
  unfold _build_ffmpeg_command, mbind, rand_bind, mret, rand_ret, uniform.
  destruct (random_random g) as [r1 g1].
  destruct (random_random g1) as [r2 g2]. cbn [fst snd].
  rewrite video_filters_cases.
  destruct (0.0001 <? PrimFloat.abs (scale_factor params - 1.0))%float;
    repeat split; reflexivity.
Qed.

(** X10. [create_unique_copy] never raises and never touches the
    registry or the clock. It runs the encoder once, on the disk as it
    is, with the upload as input and the output path as last argument. It
    answers [True] exactly when [subprocess.run] returned and the output
    file exists afterwards: every exception of the call gives [False],
    also one raised after an encode that exited with status 0 and wrote
    the file (captured output that is not text). And it leaves the shared
    random source in a state that depends on the copy number alone,
    whatever the state and the world were before. *)
Theorem create_unique_copy_outcome
    (input_file task_id filename : string) (i total_copies : Z) (w : World) :
  ∃ success w1 command,
    create_unique_copy ffmpeg input_file task_id filename i total_copies w
    = (Ok success, w1)
    ∧ active_tasks w1 = active_tasks w
    ∧ clock w1 = clock w
    ∧ disk w1 = (ffmpeg command (disk w)).2
    ∧ command !! 2%nat = Some (upload_path input_file)
    ∧ last command = Some (output_path_str task_id filename)
    ∧ success
      = (ffmpeg command (disk w)).1 && file_exists task_id filename (disk w1)
    ∧ ∀ (w0 : World) (input_file0 task_id0 filename0 : string) (total0 : Z),
        rng (create_unique_copy ffmpeg input_file0 task_id0 filename0 i
               total0 w0).2
        = rng w1.
Proof.
  assert (Hrng : ∀ (w0 : World) input0 tid0 name0 total0,
    rng (create_unique_copy ffmpeg input0 tid0 name0 i total0 w0).2
    = (_build_ffmpeg_command "" ""
         (_generate_unique_params 0 i 0 (random_seed 0)).1
         (_generate_unique_params 0 i 0 (random_seed 0)).2).2).
  { intros w0 input0 tid0 name0 total0. unfold create_unique_copy.
    destruct (generate_sampled_fields (clock w0) 0 i total0 0 (rng w0)
                (random_seed 0)) as [_ Hg].
    destruct (_generate_unique_params (clock w0) i total0 (rng w0))
      as [params g1].
    cbn [snd] in Hg. rewrite <- Hg.
    destruct (_build_ffmpeg_command_paths (upload_path input0)
                (output_path_str tid0 name0) params g1)
      as (_ & _ & _ & Hsame).
    rewrite (Hsame "" "" (_generate_unique_params 0 i 0 (random_seed 0)).1).
    destruct (_build_ffmpeg_command _ _ params g1) as [command g2].
    destruct (ffmpeg command (disk w0)) as [[|] d]; reflexivity. }
  assert (Hmain : ∃ success w1 command,
    create_unique_copy ffmpeg input_file task_id filename i total_copies w
    = (Ok success, w1)
    ∧ active_tasks w1 = active_tasks w
    ∧ clock w1 = clock w
    ∧ disk w1 = (ffmpeg command (disk w)).2
    ∧ command !! 2%nat = Some (upload_path input_file)
    ∧ last command = Some (output_path_str task_id filename)
    ∧ success
      = (ffmpeg command (disk w)).1 && file_exists task_id filename (disk w1)).
  { unfold create_unique_copy.
    destruct (_generate_unique_params (clock w) i total_copies (rng w))
      as [params g1].
    destruct (_build_ffmpeg_command_paths (upload_path input_file)
                (output_path_str task_id filename) params g1)
      as (Hinput & Houtput & _ & _).
    destruct (_build_ffmpeg_command _ _ params g1) as [command g2].
    cbn [fst] in Hinput, Houtput.
    destruct (ffmpeg command (disk w)) as [[|] d] eqn:Hrun;
      eexists _, _, command; rewrite Hrun; cbn [fst snd];
      repeat (split; [reflexivity || assumption |]); reflexivity. }
  destruct Hmain as (success & w1 & command & Hrun & Hmain).
  exists success, w1, command. split; [exact Hrun |].
  repeat (split; [apply Hmain |]).
  intros w0 input0 tid0 name0 total0. rewrite Hrng.
  rewrite <- (Hrng w input_file task_id filename total_copies), Hrun.
  reflexivity.
Qed.
End EncodeProperties.

(** ** Orchestrator: the edges of a run *)

Section RunEdgeProperties.
Context `{PyRuntime}.
Variable ffmpeg : list string → Disk → bool * Disk.
Variable others : AwaitPoint → M unit.
Variables (task_id input_file : string) (copies_count : Z)
          (output_format : string).

Abbreviation run_loop :=
  (copy_loop ffmpeg others task_id input_file copies_count output_format
     (seqZ 1 copies_count) []).
Abbreviation run :=
  (_process_task ffmpeg others task_id input_file copies_count output_format).

Lemma bind_Ok_inv {A B} (m : M A) (k : A → M B) w b w2 :
  (m ≫= k) w = (Ok b, w2) →
  ∃ a w1, m w = (Ok a, w1) ∧ k a w1 = (Ok b, w2).
Proof.
  unfold mbind, M_bind. destruct (m w) as [[a | e] w1]; [eauto | discriminate].
Qed.

(** [cleanup_file] never raises; afterwards the file is gone unless it
    cannot be deleted. *)
Lemma cleanup_file_removes name w :
  ∃ w', cleanup_file name w = (Ok tt, w')
        ∧ (upload_dir (disk w') !! name = None
           ∨ name ∈ locked_uploads (disk w')).
Proof.
  unfold cleanup_file, unlink.
  destruct (upload_dir (disk w) !! name) as [f |] eqn:Hfile; [| eauto].
  destruct (decide (name ∈ locked_uploads (disk w))) as [Hlocked | Hfree].
  - eauto.
  - eexists. split; [reflexivity |]. left. cbn. apply lookup_delete_eq.
Qed.

Lemma finish_task_ends_with_cleanup created w w2 :
  finish_task others task_id input_file created w = (Ok tt, w2) →
  ∃ w1, cleanup_file input_file w1 = (Ok tt, w2).
Proof.
  unfold finish_task. intros Hrun.
  apply bind_Ok_inv in Hrun as (? & wa & _ & Hrun).
  apply bind_Ok_inv in Hrun as (? & wb & _ & Hrun).
  apply bind_Ok_inv in Hrun as (? & wc & _ & Hrun). eauto.
Qed.

Lemma on_exception_ends_with_cleanup e w w2 :
  on_exception task_id input_file e w = (Ok tt, w2) →
  ∃ w1, cleanup_file input_file w1 = (Ok tt, w2).
Proof.
  unfold on_exception. intros Hrun.
  apply bind_Ok_inv in Hrun as (? & wa & _ & Hrun).
  apply bind_Ok_inv in Hrun as (? & wb & _ & Hrun). eauto.
Qed.

(** X11. Whenever a run ends without an unhandled exception, with the
    task completed or failed, the input file has been deleted, unless it
    cannot be deleted. *)
Theorem run_deletes_its_input (w w2 : World) :
  run w = (Ok tt, w2) →
  upload_dir (disk w2) !! input_file = None
  ∨ input_file ∈ locked_uploads (disk w2).
Proof.
  rewrite _process_task_cases. intros Hrun.
  assert (Hlast : ∃ w1, cleanup_file input_file w1 = (Ok tt, w2)).
  { destruct (run_loop w) as [[created | e] w1].
    - destruct (finish_task others task_id input_file created w1)
        as [[[] | e] w1'] eqn:Hfinish.
      + injection Hrun as <-. exact (finish_task_ends_with_cleanup _ _ _ Hfinish).
      + exact (on_exception_ends_with_cleanup _ _ _ Hrun).
    - exact (on_exception_ends_with_cleanup _ _ _ Hrun). }
  destruct Hlast as (w1 & Hclean).
  destruct (cleanup_file_removes input_file w1) as (w' & Hclean' & Hgone).
  congruence.
Qed.


(** X13. A run whose record is not registered (the task was deleted
    right after its submission) and that nobody registers again: the first
    copy is still encoded, then the progress update raises [KeyError], the
    handler raises it once more, and the run ends there with that
    unhandled exception; the world is the one the first encode left, so
    the input file is not cleaned up by the run. *)
Theorem run_of_deleted_task_dies_with_KeyError (w : World) :
  1 ≤ copies_count →
  active_tasks w !! task_id = None →
  (∀ p w0, ∃ w0', others p w0 = (Ok tt, w0')
                  ∧ (active_tasks w0 !! task_id = None →
                     active_tasks w0' !! task_id = None)) →
  ∃ success w1 w',
    create_unique_copy ffmpeg input_file task_id
      (output_filename 1 output_format) 1 copies_count w = (Ok success, w1)
    ∧ others (during_encode 1) w1 = (Ok tt, w')
    ∧ run w = (Raise (KeyError task_id), w')
    ∧ active_tasks w' !! task_id = None.
Proof.
  intros Hcount Hnone Hothers.
  destruct (create_unique_copy_returns ffmpeg task_id input_file copies_count
              (output_filename 1 output_format) 1 w)
    as (success & w1 & Hcopy & Htasks1).
  destruct (Hothers (during_encode 1) w1) as (w' & Hawait & Hkeep).
  assert (Hnone' : active_tasks w' !! task_id = None)
    by (apply Hkeep; congruence).
  exists success, w1, w'. split; [exact Hcopy |]. split; [exact Hawait |].
  split; [| exact Hnone'].
  rewrite _process_task_cases. rewrite seqZ_cons by lia. cbn [copy_loop].
  unfold mbind at 1, M_bind at 1. unfold copy_loop_body.
  unfold mbind at 1, M_bind at 1. rewrite Hcopy.
  unfold mbind at 1, M_bind at 1. rewrite Hawait.
  unfold mbind at 1, M_bind at 1, get_world.
  unfold mbind at 1, M_bind at 1.
  rewrite (task_update_unregistered task_id _ _ Hnone').
  exact (on_exception_unregistered task_id input_file _ _ Hnone').
Qed.
End RunEdgeProperties.

Section RunEdgeExamples.
#[local] Existing Instance sample_runtime.

(** The job of the scenario deletes its upload. *)
Lemma run_deletes_its_input_witness :
  (_process_task scenario_ffmpeg quiet "t" "input.mp4" 3 "mp4"
     scenario_submitted).1 = Ok tt
  ∧ (upload_dir
       (disk (_process_task scenario_ffmpeg quiet "t" "input.mp4" 3 "mp4"
                scenario_submitted).2) !! "input.mp4" = None
     ∨ "input.mp4"
       ∈ locked_uploads
           (disk (_process_task scenario_ffmpeg quiet "t" "input.mp4" 3
                    "mp4" scenario_submitted).2)).
Proof.
  assert (Hresult : (_process_task scenario_ffmpeg quiet "t" "input.mp4" 3
                       "mp4" scenario_submitted).1 = Ok tt)
    by (vm_compute; reflexivity).
  split; [exact Hresult |].
  destruct (_process_task scenario_ffmpeg quiet "t" "input.mp4" 3 "mp4"
              scenario_submitted) as [r w2] eqn:Hrun.
  cbn [fst snd] in *. subst r.
  exact (run_deletes_its_input (H := sample_runtime) scenario_ffmpeg quiet
           "t" "input.mp4" 3 "mp4" scenario_submitted w2 Hrun).
Defined.


(** Nothing is registered in [sample_world]. *)
Lemma run_of_deleted_task_dies_with_KeyError_witness :
  ∃ w',
    _process_task scenario_ffmpeg quiet "t" "input.mp4" 3 "mp4" sample_world
    = (Raise (KeyError "t"), w')
    ∧ active_tasks w' !! "t" = None.
Proof.
  destruct (run_of_deleted_task_dies_with_KeyError (H := sample_runtime)
              scenario_ffmpeg quiet "t" "input.mp4" 3 "mp4" sample_world)
    as (success & w1 & w' & _ & _ & Hrun & Hnone);
    [lia | reflexivity | intros p w0; exists w0; split; [reflexivity | auto]
    |].
  exists w'. split; assumption.
Defined.
End RunEdgeExamples.

(** ** Orchestrator: the names of the copies *)

Lemma fmt_03d_distinct_to_100 : NoDup (fmt_03d <$> seqZ 1 100).
Proof. apply (bool_decide_unpack _). vm_compute. exact I. Qed.

Lemma fmt_03d_width_to_100 :
  Forall (λ s, String.length s = 3%nat) (fmt_03d <$> seqZ 1 100).
Proof. apply (bool_decide_unpack _). vm_compute. exact I. Qed.

Lemma fmt_03d_lookup_to_100 i :
  1 ≤ i ≤ 100 →
  (fmt_03d <$> seqZ 1 100) !! Z.to_nat (i - 1) = Some (fmt_03d i).
Proof.
  intros Hi. rewrite list_lookup_fmap, lookup_seqZ_lt by lia.
  cbn. do 2 f_equal. lia.
Qed.

Lemma append_same_length_inj (a b t : string) :
  String.length a = String.length b → a +:+ t = b +:+ t → a = b.
Proof.
  revert b. induction a as [| c a IH]; intros [| c' b] Hlen Heq;
    try discriminate Hlen; [reflexivity |].
  cbn in Heq. injection Heq as -> Heq. f_equal.
  apply IH; [by injection Hlen | exact Heq].
Qed.

Lemma append_prefix_inj (p a b : string) : p +:+ a = p +:+ b → a = b.
Proof.
  induction p as [| c p IH]; intros Heq; [exact Heq |].
  cbn in Heq. injection Heq as Heq. exact (IH Heq).
Qed.

(** For the copy counts the upload endpoint admits, two copies never
    share a file name. *)
Lemma output_filename_inj_to_100 i j output_format :
  1 ≤ i ≤ 100 → 1 ≤ j ≤ 100 →
  output_filename i output_format = output_filename j output_format →
  i = j.
Proof.
  intros Hi Hj Heq. unfold output_filename in Heq.
  apply append_prefix_inj in Heq.
  pose proof (fmt_03d_lookup_to_100 i Hi) as Hli.
  pose proof (fmt_03d_lookup_to_100 j Hj) as Hlj.
  pose proof fmt_03d_width_to_100 as Hwidth.
  rewrite Forall_lookup in Hwidth.
  apply append_same_length_inj in Heq;
    [| rewrite (Hwidth _ _ Hli), (Hwidth _ _ Hlj); reflexivity].
  rewrite <- Heq in Hlj.
  pose proof (NoDup_lookup _ _ _ _ fmt_03d_distinct_to_100 Hli Hlj). lia.
Qed.

Section NameProperties.
Context `{PyRuntime}.
Variable ffmpeg : list string → Disk → bool * Disk.
Variable others : AwaitPoint → M unit.
Variables (task_id input_file : string) (copies_count : Z)
          (output_format : string).

(** X14. In a run of 1 to 100 copies that the other coroutines leave
    alone, the file names recorded for the task are pairwise distinct: no
    copy overwrites another, and the archive never holds a name twice. *)
Theorem run_records_distinct_files (w : World) (t : Task) :
  undisturbed others task_id →
  active_tasks w !! task_id = Some t →
  1 ≤ copies_count ≤ 100 →
  ∃ created w' t',
    copy_loop ffmpeg others task_id input_file copies_count output_format
      (seqZ 1 copies_count) [] w = (Ok created, w')
    ∧ active_tasks w' !! task_id = Some t'
    ∧ files t' = created
    ∧ NoDup created.
Proof.
  intros Hquiet Hlook Hcount.
  destruct (copy_loop_whole ffmpeg others task_id input_file copies_count
              output_format w t Hquiet Hlook ltac:(lia))
    as (created & w' & t' & done & Hrun & Hlook' & _ & Hfiles & Hnames
        & Hsub & _).
  exists created, w', t'. split; [exact Hrun |]. split; [exact Hlook' |].
  split; [exact Hfiles |]. rewrite Hnames.
  apply NoDup_fmap_2_strong;
    [| exact (sublist_NoDup _ _ (NoDup_seqZ _ _) Hsub)].
  intros i j Hi Hj Heq.
  apply (elem_of_sublist _ _ _ Hi) in Hsub as Hi'.
  apply (elem_of_sublist _ _ _ Hj) in Hsub as Hj'.
  apply elem_of_seqZ in Hi', Hj'.
  apply (output_filename_inj_to_100 i j output_format); [lia | lia | exact Heq].
Qed.
End NameProperties.

Section NameExamples.
#[local] Existing Instance sample_runtime.

Lemma run_records_distinct_files_witness :
  ∃ created w' t',
    copy_loop scenario_ffmpeg quiet "t" "input.mp4" 3 "mp4" (seqZ 1 3) []
      scenario_submitted = (Ok created, w')
    ∧ active_tasks w' !! "t" = Some t'
    ∧ files t' = created
    ∧ NoDup created.
Proof.
  destruct (active_tasks scenario_submitted !! "t") as [t |] eqn:Hlook;
    [| vm_compute in Hlook; discriminate Hlook].
  exact (run_records_distinct_files (H := sample_runtime) scenario_ffmpeg
           quiet "t" "input.mp4" 3 "mp4" scenario_submitted t
           (quiet_undisturbed "t") Hlook ltac:(lia)).
Defined.
End NameExamples.

(** ** Results and status after a run *)

Section ResultProperties.
Context `{PyRuntime}.
Variable ffmpeg : list string → Disk → bool * Disk.
Variable others : AwaitPoint → M unit.
Variables (task_id input_file : string) (copies_count : Z)
          (output_format : string).

Abbreviation job_loop :=
  (copy_loop ffmpeg others task_id input_file copies_count output_format
     (seqZ 1 copies_count) []).
Abbreviation job :=
  (_process_task ffmpeg others task_id input_file copies_count output_format).

(** What [get_result] answers, by the record it finds. *)
Lemma get_result_of_record w t :
  active_tasks w !! task_id = Some t →
  ∃ w1,
    get_result task_id w
    = (if decide (status t = completed)
       then Ok {| result_task_id := task_id;
                  result_status := "completed";
                  result_files := files t;
                  archive_url :=
                    match archive t with
                    | Some (String _ _) =>
                        Some ("/api/download/archive/" +:+ task_id)
                    | _ => None
                    end |}
       else Raise (HTTPException 400
                     ("Задача еще не завершена. Статус: "
                      +:+ status_str (status t))), w1).
Proof.
  intros Hlook. unfold get_result, mbind, M_bind, get_task_status, raise,
    mret, M_ret.
  rewrite Hlook. cbn [status archive files set_last_accessed].
  destruct (decide (status t = completed)) as [Hstatus | Hstatus].
  - rewrite decide_False by tauto. rewrite Hstatus.
    destruct (archive t) as [[| a name] |]; eexists; reflexivity.
  - rewrite decide_True by exact Hstatus. eexists. reflexivity.
Qed.

(** When [_create_archive] returns an archive, it is the archive of the
    task and it is on the disk. *)
Lemma _create_archive_Some created w name wa :
  _create_archive others task_id created w = (Ok (Some name), wa) →
  name = archive_name task_id ∧ file_exists task_id name (disk wa) = true.
Proof.
  unfold _create_archive, try_except, mbind, M_bind, get_world, mret, M_ret.
  destruct (create_zip task_id created w) as [[[] | e] w1]; [| discriminate].
  destruct (others during_archive w1) as [[[] | e] w2]; [| discriminate].
  destruct (file_exists task_id (archive_name task_id) (disk w2)) eqn:Hfile;
    [| discriminate].
  intros Heq. injection Heq as <- <-. split; [reflexivity | exact Hfile].
Qed.

(** X15. What the result and status endpoints report after a run is
    what the run recorded. A run that created no file: the result is
    "completed" with the (empty) file list of the record and no archive
    link. A run that built its archive: the result lists the files and
    links to the archive download of the task. A run whose loop raised:
    the result is refused with 400, and the status is "failed" with the
    text of the exception as message. *)
Theorem endpoints_report_the_run (w : World) :
  (∀ w1 t1,
     job_loop w = (Ok [], w1) →
     active_tasks w1 !! task_id = Some t1 →
     archive t1 = None →
     ∃ w2 w3,
       job w = (Ok tt, w2)
       ∧ get_result task_id w2
         = (Ok {| result_task_id := task_id; result_status := "completed";
                  result_files := files t1; archive_url := None |}, w3))
  ∧ (∀ created w1 name wa ta,
       job_loop w = (Ok created, w1) →
       created ≠ [] →
       _create_archive others task_id created w1 = (Ok (Some name), wa) →
       active_tasks wa !! task_id = Some ta →
       ∃ w2 w3,
         job w = (Ok tt, w2)
         ∧ get_result task_id w2
           = (Ok {| result_task_id := task_id; result_status := "completed";
                    result_files := files ta;
                    archive_url :=
                      Some ("/api/download/archive/" +:+ task_id) |}, w3))
  ∧ (∀ e w1 t1,
       job_loop w = (Raise e, w1) →
       active_tasks w1 !! task_id = Some t1 →
       ∃ w2 detail w3,
         job w = (Ok tt, w2)
         ∧ get_result task_id w2 = (Raise (HTTPException 400 detail), w3)
         ∧ (get_status task_id w2).1
           = Ok (ProcessStatus task_id "failed" (progress t1) (total t1)
                   (Some (exn_str e)))).
Proof.
  rewrite _process_task_cases. split; [| split].
  - intros w1 t1 Hloop Hlook Harchive. rewrite Hloop.
    destruct (finish_task_no_files others task_id input_file w1 t1 Hlook)
      as (w2 & Hrun & Hlook2).
    rewrite Hrun.
    destruct (get_result_of_record w2 _ Hlook2) as (w3 & Hresult).
    exists w2, w3. split; [reflexivity |]. rewrite Hresult.
    cbn [status update_completed archive files].
    rewrite decide_True by reflexivity. by rewrite Harchive.
  - intros created w1 name wa ta Hloop Hfiles Harchive Hlook. rewrite Hloop.
    destruct (_create_archive_Some _ _ _ _ Harchive) as [-> Hexists].
    destruct (finish_task_with_files others task_id input_file created w1
                _ wa ta Hfiles Harchive Hlook) as (w2 & Hrun & Hlook2).
    rewrite Hrun. rewrite Hexists in Hlook2.
    destruct (get_result_of_record w2 _ Hlook2) as (w3 & Hresult).
    exists w2, w3. split; [reflexivity |]. rewrite Hresult.
    cbn [status update_completed set_archive archive files].
    rewrite decide_True by reflexivity. reflexivity.
  - intros e w1 t1 Hloop Hlook. rewrite Hloop.
    destruct (on_exception_registered task_id input_file e w1 t1 Hlook)
      as (w2 & Hrun & Hlook2).
    rewrite Hrun.
    destruct (get_result_of_record w2 _ Hlook2) as (w3 & Hresult).
    exists w2. eexists _, w3. split; [reflexivity |]. split.
    + rewrite Hresult. cbn [status update_failed].
      rewrite decide_False by discriminate. reflexivity.
    + unfold get_status, mbind, M_bind, get_task_status. rewrite Hlook2.
      reflexivity.
Qed.
End ResultProperties.

Section ResultExamples.
#[local] Existing Instance sample_runtime.

(** The job of three copies, its second [await] raising: the result is
    refused and the status tells why. *)
Lemma endpoints_report_the_run_witness :
  ∃ w2,
    _process_task scenario_ffmpeg (raising_at 2) "t" "input.mp4" 3 "mp4"
      scenario_submitted = (Ok tt, w2)
    ∧ (get_status "t" w2).1
      = Ok (ProcessStatus "t" "failed" 1 3 (Some "worker lost")).
Proof.
  destruct (endpoints_report_the_run (H := sample_runtime) scenario_ffmpeg
              (raising_at 2) "t" "input.mp4" 3 "mp4" scenario_submitted)
    as (_ & _ & Hraised).
  assert (Hresult :
    (copy_loop scenario_ffmpeg (raising_at 2) "t" "input.mp4" 3 "mp4"
       (seqZ 1 3) [] scenario_submitted).1
    = Raise (RuntimeError "worker lost")) by (vm_compute; reflexivity).
  assert (Hrecord :
    ∃ t1,
      active_tasks
        (copy_loop scenario_ffmpeg (raising_at 2) "t" "input.mp4" 3 "mp4"
           (seqZ 1 3) [] scenario_submitted).2 !! "t" = Some t1
      ∧ progress t1 = 1 ∧ total t1 = 3)
    by (vm_compute; eexists; repeat split; reflexivity).
  destruct (copy_loop scenario_ffmpeg (raising_at 2) "t" "input.mp4" 3
              "mp4" (seqZ 1 3) [] scenario_submitted) as [r w1] eqn:Hloop.
  cbn [fst snd] in Hresult, Hrecord. subst r.
  destruct Hrecord as (t1 & Hlook1 & Hprogress & Htotal).
  destruct (Hraised _ w1 t1 eq_refl Hlook1)
    as (w2 & detail & w3 & Hrun & _ & Hstatus).
  exists w2. split; [exact Hrun |]. rewrite Hstatus, Hprogress, Htotal.
  reflexivity.
Defined.
End ResultExamples.

(** ** Storage report *)

Lemma sum_permutation {A} (g : A → Z) (l1 l2 : list A) :
  l1 ≡ₚ l2 →
  foldr (λ x acc, g x + acc) 0 l1 = foldr (λ x acc, g x + acc) 0 l2.
Proof. induction 1; cbn; lia. Qed.

Lemma sum_map_delete {A} (g : string * A → Z) (m : gmap string A) i x :
  m !! i = Some x →
  foldr (λ kv acc, g kv + acc) 0 (map_to_list m)
  = g (i, x) + foldr (λ kv acc, g kv + acc) 0 (map_to_list (delete i m)).
Proof.
  intros Hlook.
  rewrite <- (sum_permutation g _ _ (map_to_list_delete m i x Hlook)).
  reflexivity.
Qed.

Section StorageProperties.
Context `{PyRuntime}.
Variable round2 : float → float.

(** The two counters after one directory, and after all of them. *)
Lemma count_dir_adds acc entry :
  count_dir acc entry
  = (acc.1 + dir_size entry.2,
     acc.2 + Z.of_nat (size (dir_files entry.2))).
Proof.
  unfold count_dir, dir_size. rewrite <- length_map_to_list.
  generalize (map_to_list (dir_files entry.2)) as l. intros l.
  revert acc. induction l as [| f l IH]; intros [total count]; cbn [foldl].
  - cbn. f_equal; lia.
  - rewrite IH. cbn. f_equal; lia.
Qed.

Lemma count_dirs_adds acc (l : list (string * Dir)) :
  foldl count_dir acc l
  = (acc.1 + foldr (λ kv a, dir_size kv.2 + a) 0 l,
     acc.2 + foldr (λ kv a, Z.of_nat (size (dir_files kv.2)) + a) 0 l).
Proof.
  revert acc. induction l as [| entry l IH]; intros [total count]; cbn [foldl].
  - cbn. f_equal; lia.
  - rewrite IH, count_dir_adds. cbn. f_equal; lia.
Qed.

(** The report only reads: it returns, leaves the world as it is, and
    its counters are the sums over the task directories. *)
Lemma get_storage_info_reads w :
  ∃ info,
    get_storage_info round2 w = (Ok info, w)
    ∧ total_size_bytes info
      = foldr (λ kv a, dir_size kv.2 + a) 0
          (map_to_list (output_dir (disk w)))
    ∧ file_count info
      = foldr (λ kv a, Z.of_nat (size (dir_files kv.2)) + a) 0
          (map_to_list (output_dir (disk w)))
    ∧ task_count info = Z.of_nat (size (active_tasks w)).
Proof.
  unfold get_storage_info. rewrite count_dirs_adds. cbn [fst snd].
  eexists. split; [reflexivity |]. cbn. repeat split; lia.
Qed.

(** What a successful deletion leaves. *)
Lemma delete_task_Ok task_id w freed w' :
  delete_task task_id w = (Ok (DeleteTaskResponse freed), w') →
  output_dir (disk w') = delete task_id (output_dir (disk w))
  ∧ active_tasks w' = delete task_id (active_tasks w)
  ∧ freed = from_option dir_size 0 (output_dir (disk w) !! task_id).
Proof.
  unfold delete_task, mbind, M_bind, mret, M_ret, del_task, delete_task_dir,
    get_task_files, dir_exists.
  set (w1 := match active_tasks w !! task_id with
             | Some t => with_tasks (<[task_id := set_last_accessed (clock w) t]>
                                       (active_tasks w)) w
             | None => w
             end).
  assert (Hdisk : disk w1 = disk w)
    by (subst w1; destruct (active_tasks w !! task_id); reflexivity).
  assert (Htasks : delete task_id (active_tasks w1)
                   = delete task_id (active_tasks w)).
  { subst w1. destruct (active_tasks w !! task_id); [| reflexivity].
    cbn. apply delete_insert_eq. }
  rewrite Hdisk.
  destruct (output_dir (disk w) !! task_id) as [dir |] eqn:Hdir.
  - rewrite bool_decide_eq_true_2 by eauto. rewrite Hdisk, Hdir.
    unfold rmtree.
    destruct (decide (task_id ∈ locked_dirs (disk w))); [discriminate |].
    intros Heq. injection Heq as <- <-. cbn. rewrite ?Hdisk, Htasks.
    repeat split; reflexivity.
  - rewrite bool_decide_eq_false_2 by (intros [? ?]; discriminate).
    intros Heq. injection Heq as <- <-. cbn. rewrite ?Hdisk, Htasks.
    rewrite (delete_id _ _ Hdir). repeat split; reflexivity.
Qed.

(** X16. The storage report only reads the world, and it accounts for
    a deletion: after a successful [delete_task], the total size it
    reports has dropped by exactly the number of bytes the deletion
    announced, the file count by the number of files of the directory,
    and the task count by one if the task was registered. *)
Theorem storage_report_accounts_for_deletion
    (task_id : string) (w w' : World) (freed : Z) :
  delete_task task_id w = (Ok (DeleteTaskResponse freed), w') →
  ∃ before after,
    get_storage_info round2 w = (Ok before, w)
    ∧ get_storage_info round2 w' = (Ok after, w')
    ∧ total_size_bytes before = total_size_bytes after + freed
    ∧ file_count before
      = file_count after
        + from_option (λ dir, Z.of_nat (size (dir_files dir))) 0
            (output_dir (disk w) !! task_id)
    ∧ task_count before
      = task_count after
        + (match active_tasks w !! task_id with Some _ => 1 | None => 0 end).
Proof.
  intros Hdelete.
  destruct (delete_task_Ok _ _ _ _ Hdelete) as (Hdirs & Htasks & ->).
  destruct (get_storage_info_reads w) as (before & Hb & Hb1 & Hb2 & Hb3).
  destruct (get_storage_info_reads w') as (after & Ha & Ha1 & Ha2 & Ha3).
  exists before, after. split; [exact Hb |]. split; [exact Ha |].
  rewrite Hb1, Hb2, Hb3, Ha1, Ha2, Ha3, Hdirs, Htasks.
  split; [| split].
  - destruct (output_dir (disk w) !! task_id) as [dir |] eqn:Hdir.
    + rewrite (sum_map_delete (λ kv, dir_size kv.2) _ _ _ Hdir). cbn. lia.
    + rewrite (delete_id _ _ Hdir). cbn. lia.
  - destruct (output_dir (disk w) !! task_id) as [dir |] eqn:Hdir.
    + rewrite (sum_map_delete (λ kv, Z.of_nat (size (dir_files kv.2)))
                 _ _ _ Hdir). cbn. lia.
    + rewrite (delete_id _ _ Hdir). cbn. lia.
  - destruct (active_tasks w !! task_id) as [t |] eqn:Hlook.
    + rewrite <- (insert_delete_id (active_tasks w) task_id t Hlook) at 1.
      rewrite map_size_insert_None by apply lookup_delete_eq. lia.
    + rewrite (delete_id _ _ Hlook). lia.
Qed.
End StorageProperties.

Section StorageExamples.
#[local] Existing Instance sample_runtime.

(** Task [t] of [finished_world] holds two files, of 500 and 522
    bytes. *)
Lemma storage_report_accounts_for_deletion_witness :
  ∃ w' before after,
    delete_task "t" (finished_world ∅) = (Ok (DeleteTaskResponse 1022), w')
    ∧ get_storage_info (λ x, x) (finished_world ∅)
      = (Ok before, finished_world ∅)
    ∧ get_storage_info (λ x, x) w' = (Ok after, w')
    ∧ total_size_bytes before = total_size_bytes after + 1022.
Proof.
  assert (Hresult : (delete_task "t" (finished_world ∅)).1
                    = Ok (DeleteTaskResponse 1022))
    by (vm_compute; reflexivity).
  destruct (delete_task "t" (finished_world ∅)) as [r w'] eqn:Hdelete.
  cbn [fst] in Hresult. subst r.
  destruct (storage_report_accounts_for_deletion (H := sample_runtime)
              (λ x, x) "t" (finished_world ∅) w' 1022 Hdelete)
    as (before & after & Hb & Ha & Htotal & _).
  exists w', before, after. repeat split; assumption.
Defined.
End StorageExamples.
